(** * Shipi18n Next.js example: the API client and its proxy route

    A shallow embedding of [src/lib/shipi18n.js] (the fetch wrapper) and of
    [src/app/api/translate/route.js] (the proxy endpoint), with the
    properties the specification states about them.

    JavaScript values are an inductive type; objects are association lists
    in property order.  The module-level variable [testConfig], the calls
    made to [fetch] and the lines written with [console.error] live in an
    explicit [world]; asynchronous functions are computations in a state and
    exception monad over it, sequenced in the order of their [await]s.

    The only object the client writes to is the [translations] object it
    creates itself, so values are immutable here and no aliasing arises.

    Limits of the model, none of which a stated property depends on:
    numbers are integers (no fractions, NaN or infinities), strings are
    sequences of 8-bit characters, and the wording of the errors the engine
    itself raises is fixed text.  Of the runtime's built-in objects the
    model has the members of [Object.prototype], which every parsed object
    inherits; the members of the other prototypes are not modelled, and a
    read goes past the own properties only where the code reads under a
    computed key. *)

From Stdlib Require Import String Ascii List ZArith Bool Lia DecimalString.
Import ListNotations.
Local Open Scope string_scope.
Local Open Scope Z_scope.

(** ** JavaScript values *)

(** The last constructor is a built-in function of the runtime, which a
    read of an inherited member yields. *)
#[warnings="-register-all"]
Inductive value : Type :=
| VUndef
| VNull
| VBool (b : bool)
| VNum (n : Z)
| VStr (s : string)
| VArr (elems : list value)
| VObj (props : list (string * value))
| VNative (name : string) (arity : Z).

Definition obj := list (string * value).

(** ToBoolean. *)
Definition truthy (v : value) : bool :=
  match v with
  | VUndef | VNull => false
  | VBool b => b
  | VNum n => negb (n =? 0)
  | VStr s => negb (String.eqb s "")
  | VArr _ | VObj _ | VNative _ _ => true
  end.

(** [a || b] *)
Definition js_or (a b : value) : value := if truthy a then a else b.

Definition nullish (v : value) : bool :=
  match v with VUndef | VNull => true | _ => false end.

(** A default of a parameter or of a destructuring pattern replaces
    [undefined] only. *)
Definition with_default (v d : value) : value :=
  match v with VUndef => d | _ => v end.

Definition is_string (v : value) : bool :=
  match v with VStr _ => true | _ => false end.

(** [v === VStr s] *)
Definition strict_eq_str (v : value) (s : string) : bool :=
  match v with VStr t => String.eqb t s | _ => false end.

(** [v === n] for a number literal [n] *)
Definition strict_eq_num (v : value) (n : Z) : bool :=
  match v with VNum m => m =? n | _ => false end.

(** ** Conversions to text *)

Definition Z_to_string (n : Z) : string := NilZero.string_of_int (Z.to_int n).
Definition nat_to_string (n : nat) : string := Z_to_string (Z.of_nat n).

(** ToString, as template literals, property keys and [new Error(x)] apply
    it. *)
Fixpoint ToString (v : value) : string :=
  match v with
  | VUndef => "undefined"
  | VNull => "null"
  | VBool true => "true"
  | VBool false => "false"
  | VNum n => Z_to_string n
  | VStr s => s
  | VArr l =>
      String.concat ","
        ((fix each (l : list value) : list string :=
            match l with
            | [] => []
            | x :: r =>
                (match x with VUndef | VNull => "" | _ => ToString x end)
                  :: each r
            end) l)
  | VObj _ => "[object Object]"
  | VNative name _ => "function " ++ name ++ "() { [native code] }"
  end.

Definition dquote : string := String (ascii_of_nat 34) EmptyString.

Definition hex_digit (n : nat) : string :=
  String (ascii_of_nat (if Nat.ltb n 10 then 48 + n else 87 + n)) EmptyString.

(** One character of a JSON string literal. *)
Definition escape_char (c : ascii) : string :=
  let n := nat_of_ascii c in
  if Nat.eqb n 34 then "\" ++ dquote
  else if Nat.eqb n 92 then "\\"
  else if Nat.eqb n 8 then "\b"
  else if Nat.eqb n 9 then "\t"
  else if Nat.eqb n 10 then "\n"
  else if Nat.eqb n 12 then "\f"
  else if Nat.eqb n 13 then "\r"
  else if Nat.ltb n 32 then
    "\u00" ++ hex_digit (Nat.div n 16) ++ hex_digit (Nat.modulo n 16)
  else String c EmptyString.

Fixpoint escape (s : string) : string :=
  match s with
  | EmptyString => EmptyString
  | String c r => escape_char c ++ escape r
  end.

Definition quote (s : string) : string := dquote ++ escape s ++ dquote.

(** [JSON.stringify]: [None] is the result [undefined]; a member whose
    value serializes to [undefined] is left out of an object and written
    [null] in an array. *)
Fixpoint stringify (v : value) : option string :=
  match v with
  | VUndef | VNative _ _ => None
  | VNull => Some "null"
  | VBool true => Some "true"
  | VBool false => Some "false"
  | VNum n => Some (Z_to_string n)
  | VStr s => Some (quote s)
  | VArr l =>
      Some ("[" ++
        String.concat ","
          ((fix items (l : list value) : list string :=
              match l with
              | [] => []
              | x :: r =>
                  (match stringify x with Some s => s | None => "null" end)
                    :: items r
              end) l) ++ "]")
  | VObj o =>
      Some ("{" ++
        String.concat ","
          ((fix members (o : obj) : list string :=
              match o with
              | [] => []
              | (k, x) :: r =>
                  match stringify x with
                  | Some s => (quote k ++ ":" ++ s) :: members r
                  | None => members r
                  end
              end) o) ++ "}")
  end.

Definition JSON_stringify (v : value) : value :=
  match stringify v with Some s => VStr s | None => VUndef end.

(** ** Objects *)

(** The value of key [k]; the last entry for a key is the one in force. *)
Fixpoint lookup (k : string) (o : obj) : option value :=
  match o with
  | [] => None
  | (k', v) :: r =>
      match lookup k r with
      | Some x => Some x
      | None => if String.eqb k k' then Some v else None
      end
  end.

Definition has_key (k : string) (o : obj) : bool :=
  match lookup k o with Some _ => true | None => false end.

Fixpoint digits (s : string) (acc : Z) : option Z :=
  match s with
  | EmptyString => Some acc
  | String c r =>
      let n := nat_of_ascii c in
      if Nat.leb 48 n && Nat.leb n 57
      then digits r (10 * acc + Z.of_nat (n - 48))
      else None
  end.

(** The array index a key is: a canonical decimal numeral below 2^32 - 1.
    An object lists its properties with the array indices first, in
    ascending order, and the other keys after them, in the order they were
    created. *)
Definition array_index (k : string) : option Z :=
  match k with
  | EmptyString => None
  | String _ _ =>
      match digits k 0 with
      | Some n =>
          if String.eqb (Z_to_string n) k && (n <? 4294967295) then Some n else None
      | None => None
      end
  end.

Fixpoint insert_index (n : Z) (k : string) (v : value) (o : obj) : obj :=
  match o with
  | [] => [(k, v)]
  | (k', v') :: r =>
      match array_index k' with
      | Some m => if m <? n then (k', v') :: insert_index n k v r else (k, v) :: o
      | None => (k, v) :: o
      end
  end.

(** Defining the own property [k] of [o], as an object literal and a
    spread do: an existing property keeps its place, a new array index goes
    among the indices, any other new key goes last. *)
Definition obj_set (k : string) (v : value) (o : obj) : obj :=
  if has_key k o
  then map (fun kv => if String.eqb k (fst kv) then (fst kv, v) else kv) o
  else
    match array_index k with
    | Some n => insert_index n k v o
    | None => (o ++ [(k, v)])%list
    end.

(** [o[k] = v] on an ordinary object under a computed key: the key
    [__proto__] is the inherited setter, which defines no property (what it
    does to the prototype is not modelled); every other key defines the own
    property. *)
Definition obj_assign (k : string) (v : value) (o : obj) : obj :=
  if String.eqb k "__proto__" then o else obj_set k v o.

(** The function members of [Object.prototype]. *)
Definition object_prototype : obj :=
  [("constructor", VNative "Object" 1);
   ("__defineGetter__", VNative "__defineGetter__" 2);
   ("__defineSetter__", VNative "__defineSetter__" 2);
   ("hasOwnProperty", VNative "hasOwnProperty" 1);
   ("__lookupGetter__", VNative "__lookupGetter__" 1);
   ("__lookupSetter__", VNative "__lookupSetter__" 1);
   ("isPrototypeOf", VNative "isPrototypeOf" 1);
   ("propertyIsEnumerable", VNative "propertyIsEnumerable" 1);
   ("toString", VNative "toString" 0);
   ("valueOf", VNative "valueOf" 0);
   ("toLocaleString", VNative "toLocaleString" 0)].

(** What an object inherits under [k]: a function member, or for
    [__proto__] the prototype itself, which has no enumerable own property
    and is written here as the empty object. *)
Definition inherited (k : string) : value :=
  if String.eqb k "__proto__" then VObj []
  else match lookup k object_prototype with Some f => f | None => VUndef end.


Fixpoint indexed (i : nat) (l : list value) : obj :=
  match l with
  | [] => []
  | x :: r => (nat_to_string i, x) :: indexed (S i) r
  end.

Fixpoint chars (s : string) : list value :=
  match s with
  | EmptyString => []
  | String c r => VStr (String c EmptyString) :: chars r
  end.

(** The own enumerable properties that [...v] copies. *)
Definition own_entries (v : value) : obj :=
  match v with
  | VObj o => o
  | VArr l => indexed 0 l
  | VStr s => indexed 0 (chars s)
  | _ => []
  end.

(** An item of an object literal. *)
Inductive item : Type :=
| Prop_ (k : string) (v : value)
| Spread (v : value).

Definition add_item (o : obj) (i : item) : obj :=
  match i with
  | Prop_ k v => obj_set k v o
  | Spread s => fold_left (fun acc kv => obj_set (fst kv) (snd kv) acc) (own_entries s) o
  end.

Definition object_literal (items : list item) : value :=
  VObj (fold_left add_item items []).

(** ** Exceptions and outcomes *)

Inductive exn : Type :=
| JsError (message : string)
| TypeError (message : string)
| SyntaxError (message : string).

Definition message_of (e : exn) : string :=
  match e with JsError m | TypeError m | SyntaxError m => m end.

(** [new Error(x)] *)
Definition new_Error (x : value) : exn :=
  match x with VUndef => JsError "" | _ => JsError (ToString x) end.

Inductive outcome (A : Type) : Type :=
| Ok (a : A)
| Throw (e : exn).
Arguments Ok {A} a.
Arguments Throw {A} e.

(** [v.k] for the names the code reads by name, none of which is inherited
    from a prototype; reading a property of [undefined] or [null] is a
    TypeError. *)
Definition get_prop (v : value) (k : string) : outcome value :=
  match v with
  | VUndef => Throw (TypeError ("Cannot read properties of undefined (reading '" ++ k ++ "')"))
  | VNull => Throw (TypeError ("Cannot read properties of null (reading '" ++ k ++ "')"))
  | VBool _ | VNum _ => Ok VUndef
  | VStr s =>
      if String.eqb k "length" then Ok (VNum (Z.of_nat (String.length s)))
      else Ok (match lookup k (indexed 0 (chars s)) with Some x => x | None => VUndef end)
  | VArr l =>
      if String.eqb k "length" then Ok (VNum (Z.of_nat (List.length l)))
      else Ok (match lookup k (indexed 0 l) with Some x => x | None => VUndef end)
  | VObj o => Ok (match lookup k o with Some x => x | None => VUndef end)
  | VNative name arity =>
      if String.eqb k "length" then Ok (VNum arity)
      else if String.eqb k "name" then Ok (VStr name)
      else Ok VUndef
  end.

(** [v?.[k]] *)
Definition get_prop_opt (v : value) (k : string) : value :=
  match get_prop v k with Ok x => x | Throw _ => VUndef end.

(** [v[k]] under a computed key: an object's own property, and failing
    that what it inherits from [Object.prototype]. *)
Definition get_member (v : value) (k : string) : outcome value :=
  match v with
  | VObj o => Ok (match lookup k o with Some x => x | None => inherited k end)
  | _ => get_prop v k
  end.


(** ** The world around the client *)

(** A call [fetch(url, init)]; [init] is [undefined] when the call passes
    one argument. *)
Record request : Type := mkRequest {
  req_url : string;
  req_init : value
}.

(** What the client reads of a [Response]: [ok], [status], and what
    [json()] settles to (it rejects on a body that is not JSON). *)
Record response : Type := mkResponse {
  resp_ok : bool;
  resp_status : Z;
  resp_json : outcome value
}.

(** [typeof window !== 'undefined'] and [process.env]. *)
Record environment : Type := mkEnv {
  has_window : bool;
  process_env : string -> value
}.

(** The module variable [testConfig] ([null] until set), the calls made to
    [fetch] (oldest first) and the errors written to the console. *)
Record world : Type := mkWorld {
  testConfig : value;
  fetched : list request;
  console : list exn
}.

Definition M (A : Type) : Type := world -> outcome A * world.

Definition ret {A} (a : A) : M A := fun w => (Ok a, w).

Definition throw {A} (e : exn) : M A := fun w => (Throw e, w).

Definition bind {A B} (m : M A) (k : A -> M B) : M B :=
  fun w =>
    match m w with
    | (Ok a, w') => k a w'
    | (Throw e, w') => (Throw e, w')
    end.

(** [try { m } catch (e) { h e }], also [m.catch(h)] on a promise. *)
Definition try_catch {A} (m : M A) (h : exn -> M A) : M A :=
  fun w =>
    match m w with
    | (Ok a, w') => (Ok a, w')
    | (Throw e, w') => h e w'
    end.

Definition lift {A} (o : outcome A) : M A := fun w => (o, w).

Declare Scope js_scope.
Delimit Scope js_scope with js.
Notation "x <- m ;; k" := (bind m (fun x => k))
  (at level 61, m at next level, right associativity) : js_scope.
Notation "m ;;; k" := (bind m (fun _ => k))
  (at level 61, right associativity) : js_scope.
Local Open Scope js_scope.

Definition default_api_url : string :=
  "https://x9527l3blg.execute-api.us-east-1.amazonaws.com".

Definition missing_key_message : string :=
  "SHIPI18N_API_KEY is not set. Get your free key at https://shipi18n.com".

(** [Response.json(data, {status})] of the route: the status and the data
    that is serialized as the body; data with no serialization is a
    TypeError. *)
Record http_response : Type := mkHttp {
  http_status : Z;
  http_body : value
}.

Definition Response_json (data : value) (status : Z) : outcome http_response :=
  match stringify data with
  | Some _ => Ok (mkHttp status data)
  | None => Throw (TypeError "Value is not JSON serializable")
  end.

(** What [for (const x of v)] goes through. *)
Definition iterate (v : value) : outcome (list value) :=
  match v with
  | VArr l => Ok l
  | VStr s => Ok (chars s)
  | _ => Throw (TypeError (ToString v ++ " is not iterable"))
  end.

(** The loop of [translateLocaleFile] over the remaining languages:
    [if (result[lang]) translations[lang] = result[lang]]. *)
Fixpoint pick_languages (result : value) (langs : list value) (translations : obj)
  : outcome obj :=
  match langs with
  | [] => Ok translations
  | lang :: rest =>
      match get_member result (ToString lang) with
      | Throw e => Throw e
      | Ok c =>
          if truthy c then
            match get_member result (ToString lang) with
            | Throw e => Throw e
            | Ok r => pick_languages result rest (obj_assign (ToString lang) r translations)
            end
          else pick_languages result rest translations
      end
  end.

Section Client.

Variable env : environment.
(** The transport behind [fetch]: what a call settles to. *)
Variable transport : request -> outcome response.

Definition fetch (url : string) (init : value) : M response :=
  fun w =>
    (transport (mkRequest url init),
     mkWorld (testConfig w) (fetched w ++ [mkRequest url init]) (console w)).

Definition console_error (e : exn) : M unit :=
  fun w => (Ok tt, mkWorld (testConfig w) (fetched w) (console w ++ [e])).

Definition setConfig (newConfig : value) : M unit :=
  fun w => (Ok tt, mkWorld newConfig (fetched w) (console w)).

Definition resetConfig : M unit :=
  fun w => (Ok tt, mkWorld VNull (fetched w) (console w)).

Definition getConfig : M value :=
  fun w =>
    if truthy (testConfig w) then (Ok (testConfig w), w)
    else if negb (has_window env) then
      (Ok (VObj [("apiKey", process_env env "SHIPI18N_API_KEY");
                 ("apiUrl", js_or (process_env env "SHIPI18N_API_URL")
                                  (VStr default_api_url))]), w)
    else
      (Ok (VObj [("apiKey", process_env env "NEXT_PUBLIC_SHIPI18N_API_KEY");
                 ("apiUrl", js_or (process_env env "NEXT_PUBLIC_SHIPI18N_API_URL")
                                  (VStr default_api_url))]), w).

Definition apiRequest (endpoint options_arg : value) : M value :=
  let options := with_default options_arg (VObj []) in
  config <- getConfig ;;
  apiKey <- lift (get_prop config "apiKey") ;;
  apiUrl <- lift (get_prop config "apiUrl") ;;
  if negb (truthy apiKey) then throw (JsError missing_key_message)
  else
    let url := ToString apiUrl ++ "/api" ++ ToString endpoint in
    caller_headers <- lift (get_prop options "headers") ;;
    response <- fetch url
      (object_literal
         [Spread options;
          Prop_ "headers"
            (object_literal
               [Prop_ "Content-Type" (VStr "application/json");
                Prop_ "X-API-Key" apiKey;
                Spread caller_headers])]) ;;
    if negb (resp_ok response) then
      errorData <- try_catch (lift (resp_json response)) (fun _ => ret (VObj [])) ;;
      message <- lift (get_prop errorData "message") ;;
      throw (new_Error
               (js_or message
                  (VStr ("API error: " ++ ToString (VNum (resp_status response))))))
    else lift (resp_json response).

Definition translate (arg : value) : M value :=
  text <- lift (get_prop arg "text") ;;
  sourceLanguage_ <- lift (get_prop arg "sourceLanguage") ;;
  targetLanguages <- lift (get_prop arg "targetLanguages") ;;
  preservePlaceholders_ <- lift (get_prop arg "preservePlaceholders") ;;
  enablePluralization_ <- lift (get_prop arg "enablePluralization") ;;
  let sourceLanguage := with_default sourceLanguage_ (VStr "en") in
  let preservePlaceholders := with_default preservePlaceholders_ (VBool true) in
  let enablePluralization := with_default enablePluralization_ (VBool true) in
  if negb (truthy text) then throw (JsError "Text is required")
  else if negb (truthy (get_prop_opt targetLanguages "length"))
  then throw (JsError "At least one target language is required")
  else
    apiRequest (VStr "/translate")
      (object_literal
         [Prop_ "method" (VStr "POST");
          Prop_ "body"
            (JSON_stringify
               (object_literal
                  [Prop_ "text" text;
                   Prop_ "sourceLanguage" sourceLanguage;
                   Prop_ "targetLanguages" targetLanguages;
                   Prop_ "preservePlaceholders" preservePlaceholders;
                   Prop_ "enablePluralization" enablePluralization]))]).

Definition translateJSON (arg : value) : M value :=
  json <- lift (get_prop arg "json") ;;
  sourceLanguage_ <- lift (get_prop arg "sourceLanguage") ;;
  targetLanguages <- lift (get_prop arg "targetLanguages") ;;
  preservePlaceholders_ <- lift (get_prop arg "preservePlaceholders") ;;
  enablePluralization_ <- lift (get_prop arg "enablePluralization") ;;
  let sourceLanguage := with_default sourceLanguage_ (VStr "en") in
  let preservePlaceholders := with_default preservePlaceholders_ (VBool true) in
  let enablePluralization := with_default enablePluralization_ (VBool true) in
  let jsonString := if is_string json then json else JSON_stringify json in
  apiRequest (VStr "/translate")
    (object_literal
       [Prop_ "method" (VStr "POST");
        Prop_ "body"
          (JSON_stringify
             (object_literal
                [Prop_ "text" jsonString;
                 Prop_ "sourceLanguage" sourceLanguage;
                 Prop_ "targetLanguages" targetLanguages;
                 Prop_ "preservePlaceholders" preservePlaceholders;
                 Prop_ "enablePluralization" enablePluralization;
                 Prop_ "outputFormat" (VStr "json")]))]).

Definition translateLocaleFile (arg : value) : M value :=
  content <- lift (get_prop arg "content") ;;
  sourceLanguage_ <- lift (get_prop arg "sourceLanguage") ;;
  targetLanguages <- lift (get_prop arg "targetLanguages") ;;
  preservePlaceholders_ <- lift (get_prop arg "preservePlaceholders") ;;
  enablePluralization_ <- lift (get_prop arg "enablePluralization") ;;
  let sourceLanguage := with_default sourceLanguage_ (VStr "en") in
  let preservePlaceholders := with_default preservePlaceholders_ (VBool true) in
  let enablePluralization := with_default enablePluralization_ (VBool true) in
  result <- translateJSON
    (object_literal
       [Prop_ "json" content;
        Prop_ "sourceLanguage" sourceLanguage;
        Prop_ "targetLanguages" targetLanguages;
        Prop_ "preservePlaceholders" preservePlaceholders;
        Prop_ "enablePluralization" enablePluralization]) ;;
  langs <- lift (iterate targetLanguages) ;;
  translations <- lift (pick_languages result langs []) ;;
  ret (VObj translations).

Definition healthCheck : M value :=
  config <- getConfig ;;
  apiUrl <- lift (get_prop config "apiUrl") ;;
  response <- fetch (ToString apiUrl ++ "/api/health") VUndef ;;
  lift (resp_json response).

Definition getTranslations (locale namespace : value) : M value :=
  ret (VObj []).

(** [POST] of the proxy route; [request_json] is what [request.json()]
    settles to. *)
Definition POST (request_json : outcome value) : M http_response :=
  try_catch
    (body <- lift request_json ;;
     text <- lift (get_prop body "text") ;;
     targetLanguages <- lift (get_prop body "targetLanguages") ;;
     preservePlaceholders_ <- lift (get_prop body "preservePlaceholders") ;;
     outputFormat <- lift (get_prop body "outputFormat") ;;
     let preservePlaceholders := with_default preservePlaceholders_ (VBool true) in
     if negb (truthy text) then
       lift (Response_json (object_literal [Prop_ "error" (VStr "Text is required")]) 400)
     else if negb (truthy targetLanguages)
               || strict_eq_num (get_prop_opt targetLanguages "length") 0
     then
       lift (Response_json
               (object_literal
                  [Prop_ "error" (VStr "At least one target language is required")]) 400)
     else
       result <-
         (if strict_eq_str outputFormat "json" then
            translateJSON
              (object_literal
                 [Prop_ "json" text;
                  Prop_ "targetLanguages" targetLanguages;
                  Prop_ "preservePlaceholders" preservePlaceholders])
          else
            translate
              (object_literal
                 [Prop_ "text" text;
                  Prop_ "targetLanguages" targetLanguages;
                  Prop_ "preservePlaceholders" preservePlaceholders])) ;;
       lift (Response_json result 200))
    (fun error =>
       console_error error ;;;
       lift (Response_json
               (object_literal
                  [Prop_ "error"
                     (js_or (VStr (message_of error)) (VStr "Translation failed"))])
               500)).

End Client.

(** ** Notions used to state the properties *)

(** The configuration [getConfig] resolves to in a world. *)
Definition resolved (env : environment) (w : world) : value :=
  match fst (getConfig env w) with Ok c => c | Throw _ => VUndef end.

Definition resolved_key (env : environment) (w : world) : value :=
  get_prop_opt (resolved env w) "apiKey".
Definition resolved_url (env : environment) (w : world) : value :=
  get_prop_opt (resolved env w) "apiUrl".

(** The init object [apiRequest] hands to [fetch]. *)
Definition init_of (apiKey options caller_headers : value) : value :=
  object_literal
    [Spread options;
     Prop_ "headers"
       (object_literal
          [Prop_ "Content-Type" (VStr "application/json");
           Prop_ "X-API-Key" apiKey;
           Spread caller_headers])].

(** Lines 67-72 of [apiRequest], as a function of the response. *)
Definition read_response (r : response) : outcome value :=
  if negb (resp_ok r) then
    match get_prop (match resp_json r with Ok d => d | Throw _ => VObj [] end) "message" with
    | Throw e => Throw e
    | Ok message =>
        Throw (new_Error
                 (js_or message
                    (VStr ("API error: " ++ ToString (VNum (resp_status r))))))
    end
  else resp_json r.

(** The world after the calls [calls] to [fetch]. *)
Definition sent (w : world) (calls : list request) : world :=
  mkWorld (testConfig w) (fetched w ++ calls) (console w).

(** The call [translate], [translateJSON] make through [apiRequest]: a POST
    with the given body and the two mandatory headers. *)
Definition post_request (env : environment) (w : world) (body : value) : request :=
  mkRequest (ToString (resolved_url env w) ++ "/api/translate")
    (VObj [("method", VStr "POST");
           ("body", body);
           ("headers", VObj [("Content-Type", VStr "application/json");
                             ("X-API-Key", resolved_key env w)])]).

(** The body [translateLocaleFile] sends through [translateJSON]. *)
Definition locale_body (arg : value) : value :=
  JSON_stringify
    (VObj [("text",
            if is_string (get_prop_opt arg "content") then get_prop_opt arg "content"
            else JSON_stringify (get_prop_opt arg "content"));
           ("sourceLanguage", with_default (get_prop_opt arg "sourceLanguage") (VStr "en"));
           ("targetLanguages", get_prop_opt arg "targetLanguages");
           ("preservePlaceholders",
            with_default (get_prop_opt arg "preservePlaceholders") (VBool true));
           ("enablePluralization",
            with_default (get_prop_opt arg "enablePluralization") (VBool true));
           ("outputFormat", VStr "json")]).


(** The call the route dispatches to for a parsed body (lines 30-44 of
    [route.js]). *)
Definition dispatched (env : environment) (transport : request -> outcome response)
    (body : value) : M value :=
  if strict_eq_str (get_prop_opt body "outputFormat") "json" then
    translateJSON env transport
      (object_literal
         [Prop_ "json" (get_prop_opt body "text");
          Prop_ "targetLanguages" (get_prop_opt body "targetLanguages");
          Prop_ "preservePlaceholders"
            (with_default (get_prop_opt body "preservePlaceholders") (VBool true))])
  else
    translate env transport
      (object_literal
         [Prop_ "text" (get_prop_opt body "text");
          Prop_ "targetLanguages" (get_prop_opt body "targetLanguages");
          Prop_ "preservePlaceholders"
            (with_default (get_prop_opt body "preservePlaceholders") (VBool true))]).

(** The body of the route's error responses. *)
Definition error_body (message : string) : value := VObj [("error", VStr message)].

(** The world after [console.error] has written [e]. *)
Definition logged (w : world) (e : exn) : world :=
  mkWorld (testConfig w) (fetched w) (console w ++ [e]).

(** A computation is steady when, from two worlds with the same
    [testConfig], it has the same outcome and makes the same calls, and it
    leaves [testConfig] as it found it: the log of earlier calls and the
    console are written, never read. *)
Definition steady {A} (m : M A) : Prop :=
  forall w w', testConfig w = testConfig w' ->
    fst (m w) = fst (m w')
    /\ testConfig (snd (m w)) = testConfig w
    /\ exists calls,
         fetched (snd (m w)) = (fetched w ++ calls)%list
         /\ fetched (snd (m w')) = (fetched w' ++ calls)%list.

(** Calling twice in a row: the second call, run in the world the first one
    left, has the outcome of the first and makes the same calls again. *)
Definition repeatable {A} (m : M A) : Prop :=
  forall w,
    fst (m (snd (m w))) = fst (m w)
    /\ testConfig (snd (m w)) = testConfig w
    /\ testConfig (snd (m (snd (m w)))) = testConfig w
    /\ exists calls,
         fetched (snd (m w)) = (fetched w ++ calls)%list
         /\ fetched (snd (m (snd (m w)))) = (fetched w ++ calls ++ calls)%list.

(** ** Fixtures: the configuration and transports of the test suite *)

(** A server process with none of the variables set. *)
Definition server_env : environment := mkEnv false (fun _ => VUndef).

Definition test_config : value :=
  VObj [("apiKey", VStr "sk_test_123"); ("apiUrl", VStr "https://api.test.com")].

(** After [setConfig(test_config)], and after [resetConfig()]. *)
Definition configured : world := mkWorld test_config [] [].
Definition unconfigured : world := mkWorld VNull [] [].

(** Transports that answer every call alike. *)
Definition stub_ok (body : value) : request -> outcome response :=
  fun _ => Ok (mkResponse true 200 (Ok body)).

Definition stub_failing (status : Z) (body : outcome value) : request -> outcome response :=
  fun _ => Ok (mkResponse false status body).

Definition stub_throwing (e : exn) : request -> outcome response :=
  fun _ => Throw e.

(** The header [name] of each request in a log. *)
Definition header_sent (name : string) (log : list request) : list value :=
  map (fun r => get_prop_opt (get_prop_opt (req_init r) "headers") name) log.

(** Sample responses. *)
Definition hola : value :=
  VObj [("es", VArr [VObj [("original", VStr "Hello"); ("translated", VStr "Hola")]])].

(** [s] between double quotes, plain and escaped, to write JSON text. *)
Definition quoted (s : string) : string := dquote ++ s ++ dquote.
Definition escaped (s : string) : string := "\" ++ dquote ++ s ++ "\" ++ dquote.

Definition mi_app : value := VObj [("title", VStr "Mi App")].

(** ** Further notions: counting calls *)

(** A computation that makes at most [n] calls to [fetch], whatever the
    world it starts in. *)
Definition calls_at_most (n : nat) {A} (m : M A) : Prop :=
  forall w, exists calls,
    fetched (snd (m w)) = (fetched w ++ calls)%list /\ (List.length calls <= n)%nat.

(** ** The pages that call the client and the route

    Each handler is modelled by the component state it leaves once it has
    run to completion, no other event being handled in between; the state
    variables of a component are the fields of a record. *)

(** [String.prototype.trim] belongs to the runtime: the handlers below take
    it as the parameter [trim].  On a text of ASCII characters the white
    space it strips is the six characters below, which gives the instance
    [trim_ascii] the examples run with. *)
Definition is_ascii_space (c : ascii) : bool :=
  let n := nat_of_ascii c in
  Nat.eqb n 9 || Nat.eqb n 10 || Nat.eqb n 11 || Nat.eqb n 12 || Nat.eqb n 13
  || Nat.eqb n 32.

Fixpoint trim_ascii_start (s : string) : string :=
  match s with
  | EmptyString => EmptyString
  | String c r => if is_ascii_space c then trim_ascii_start r else s
  end.

Fixpoint trim_ascii_end (s : string) : string :=
  match s with
  | EmptyString => EmptyString
  | String c r =>
      match trim_ascii_end r with
      | EmptyString => if is_ascii_space c then EmptyString else String c EmptyString
      | r' => String c r'
      end
  end.

Definition trim_ascii (s : string) : string := trim_ascii_end (trim_ascii_start s).

(** [toggleLanguage] of the client-side and file-translation pages, as the
    function it passes to [setSelectedLanguages]. *)
Definition toggleLanguage (code : string) (prev : list string) : list string :=
  if existsb (String.eqb code) prev
  then filter (fun l => negb (String.eqb l code)) prev
  else (prev ++ [code])%list.

Module ClientSidePage.

Record state : Type := mkState {
  text : string;
  selectedLanguages : list string;
  translations : value;
  loading : bool;
  error : value
}.

Definition initial : state :=
  mkState "Hello! Welcome to our application." ["es"; "fr"] VNull false VNull.

Definition handleTranslate (trim : string -> string)
    (env : environment) (transport : request -> outcome response)
    (st : state) : M state :=
  if negb (truthy (VStr (trim (text st)))) then ret st
  else
    let st1 := mkState (text st) (selectedLanguages st) (translations st) true VNull in
    st2 <- try_catch
             (result <- translate env transport
                          (object_literal
                             [Prop_ "text" (VStr (text st));
                              Prop_ "targetLanguages" (VArr (map VStr (selectedLanguages st)));
                              Prop_ "preservePlaceholders" (VBool true)]) ;;
              ret (mkState (text st1) (selectedLanguages st1) result (loading st1) (error st1)))
             (fun err =>
                ret (mkState (text st1) (selectedLanguages st1) (translations st1)
                       (loading st1) (VStr (message_of err)))) ;;
    ret (mkState (text st2) (selectedLanguages st2) (translations st2) false (error st2)).

End ClientSidePage.

Module ServerSidePage.

Definition sampleText : string :=
  "Welcome to our platform! We help developers ship faster.".

(** The [translations] and [error] the server component renders. *)
Definition ServerSideExample (env : environment) (transport : request -> outcome response)
  : M (value * value) :=
  try_catch
    (translations <- translate env transport
                       (object_literal
                          [Prop_ "text" (VStr sampleText);
                           Prop_ "targetLanguages"
                             (VArr [VStr "es"; VStr "fr"; VStr "de"; VStr "ja"]);
                           Prop_ "preservePlaceholders" (VBool true)]) ;;
     ret (translations, VNull))
    (fun err => ret (VNull, VStr (message_of err))).

End ServerSidePage.

Module ApiRoutePage.

Record state : Type := mkState {
  text : string;
  targetLanguage : string;
  translation : value;
  loading : bool;
  error : value
}.

Definition initial : state :=
  mkState "Hello! This translation goes through our API route." "es" VNull false VNull.

(** [transport] is the browser's, which reaches the route. *)
Definition handleTranslate (trim : string -> string)
    (transport : request -> outcome response) (st : state)
  : M state :=
  if negb (truthy (VStr (trim (text st)))) then ret st
  else
    let st1 := mkState (text st) (targetLanguage st) (translation st) true VNull in
    st2 <- try_catch
             (response <- fetch transport "/api/translate"
                            (object_literal
                               [Prop_ "method" (VStr "POST");
                                Prop_ "headers"
                                  (object_literal
                                     [Prop_ "Content-Type" (VStr "application/json")]);
                                Prop_ "body"
                                  (JSON_stringify
                                     (object_literal
                                        [Prop_ "text" (VStr (text st));
                                         Prop_ "targetLanguages"
                                           (VArr [VStr (targetLanguage st)])]))]) ;;
              (if negb (resp_ok response) then
                 errorData <- lift (resp_json response) ;;
                 error_field <- lift (get_prop errorData "error") ;;
                 throw (new_Error (js_or error_field (VStr "Translation failed")))
               else ret tt) ;;;
              result <- lift (resp_json response) ;;
              ret (mkState (text st1) (targetLanguage st1) result (loading st1) (error st1)))
             (fun err =>
                ret (mkState (text st1) (targetLanguage st1) (translation st1)
                       (loading st1) (VStr (message_of err)))) ;;
    ret (mkState (text st2) (targetLanguage st2) (translation st2) false (error st2)).

End ApiRoutePage.

Module FileTranslationPage.

(** The page's own [translateJSON], which goes through the route. *)
Definition translateJSON (transport : request -> outcome response) (arg : value)
  : M value :=
  json <- lift (get_prop arg "json") ;;
  targetLanguages <- lift (get_prop arg "targetLanguages") ;;
  response <- fetch transport "/api/translate"
                (object_literal
                   [Prop_ "method" (VStr "POST");
                    Prop_ "headers"
                      (object_literal [Prop_ "Content-Type" (VStr "application/json")]);
                    Prop_ "body"
                      (JSON_stringify
                         (object_literal
                            [Prop_ "text" (JSON_stringify json);
                             Prop_ "targetLanguages" targetLanguages;
                             Prop_ "preservePlaceholders" (VBool true);
                             Prop_ "outputFormat" (VStr "json")]))]) ;;
  if negb (resp_ok response) then
    error <- lift (resp_json response) ;;
    error_field <- lift (get_prop error "error") ;;
    throw (new_Error (js_or error_field (VStr "Translation failed")))
  else lift (resp_json response).

Record state : Type := mkState {
  fileContent : value;
  fileName : string;
  selectedLanguages : list string;
  translations : value;
  loading : bool;
  error : value
}.

Definition initial : state := mkState VNull "" ["es"; "fr"] VNull false VNull.

Definition handleTranslate (transport : request -> outcome response) (st : state)
  : M state :=
  if negb (truthy (fileContent st)) then ret st
  else
    let st1 := mkState (fileContent st) (fileName st) (selectedLanguages st)
                 (translations st) true VNull in
    st2 <- try_catch
             (result <- translateJSON transport
                          (object_literal
                             [Prop_ "json" (fileContent st);
                              Prop_ "targetLanguages" (VArr (map VStr (selectedLanguages st)));
                              Prop_ "preservePlaceholders" (VBool true)]) ;;
              ret (mkState (fileContent st1) (fileName st1) (selectedLanguages st1) result
                     (loading st1) (error st1)))
             (fun err =>
                ret (mkState (fileContent st1) (fileName st1) (selectedLanguages st1)
                       (translations st1) (loading st1) (VStr (message_of err)))) ;;
    ret (mkState (fileContent st2) (fileName st2) (selectedLanguages st2)
           (translations st2) false (error st2)).

End FileTranslationPage.

(** The request the two client pages send to the route. *)
Definition route_request (body : value) : request :=
  mkRequest "/api/translate"
    (VObj [("method", VStr "POST");
           ("headers", VObj [("Content-Type", VStr "application/json")]);
           ("body", body)]).

(** A transport that is down: every call throws [e]. *)
Definition always_throws (transport : request -> outcome response) (e : exn) : Prop :=
  forall req, transport req = Throw e.

(** A transport that answers every call with the response [r]. *)
Definition always_answers (transport : request -> outcome response) (r : response) : Prop :=
  forall req, transport req = Ok r.

(** A browser process: a [window], and the given variables. *)
Definition browser_env (vars : string -> value) : environment := mkEnv true vars.

(** The text the route puts in a 500 response for the exception [e]. *)
Definition failure_message (e : exn) : string :=
  if String.eqb (message_of e) "" then "Translation failed" else message_of e.

(** The bodies the route sends upstream, in plain and in JSON mode. *)
Definition plain_body (body : value) : value :=
  JSON_stringify
    (VObj [("text", get_prop_opt body "text");
           ("sourceLanguage", VStr "en");
           ("targetLanguages", get_prop_opt body "targetLanguages");
           ("preservePlaceholders",
            with_default (get_prop_opt body "preservePlaceholders") (VBool true));
           ("enablePluralization", VBool true)]).

Definition json_body (body : value) : value :=
  JSON_stringify
    (VObj [("text",
            if is_string (get_prop_opt body "text") then get_prop_opt body "text"
            else JSON_stringify (get_prop_opt body "text"));
           ("sourceLanguage", VStr "en");
           ("targetLanguages", get_prop_opt body "targetLanguages");
           ("preservePlaceholders",
            with_default (get_prop_opt body "preservePlaceholders") (VBool true));
           ("enablePluralization", VBool true);
           ("outputFormat", VStr "json")]).

(** The call [handleTranslate] of the client-side page makes. *)
Definition client_call (env : environment) (transport : request -> outcome response)
    (st : ClientSidePage.state) : M value :=
  translate env transport
    (object_literal
       [Prop_ "text" (VStr (ClientSidePage.text st));
        Prop_ "targetLanguages" (VArr (map VStr (ClientSidePage.selectedLanguages st)));
        Prop_ "preservePlaceholders" (VBool true)]).

(** The request the server-side page has [translate] send. *)
Definition server_page_request (env : environment) (w : world) : request :=
  post_request env w
    (JSON_stringify
       (VObj [("text", VStr ServerSidePage.sampleText);
              ("sourceLanguage", VStr "en");
              ("targetLanguages", VArr [VStr "es"; VStr "fr"; VStr "de"; VStr "ja"]);
              ("preservePlaceholders", VBool true);
              ("enablePluralization", VBool true)])).



(** The request the file-translation page sends to the route for the
    content [json] and the languages [targetLanguages]. *)
Definition file_page_request (json targetLanguages : value) : request :=
  route_request
    (JSON_stringify
       (VObj [("text", JSON_stringify json);
              ("targetLanguages", targetLanguages);
              ("preservePlaceholders", VBool true);
              ("outputFormat", VStr "json")])).

(** What the pages that call the route make of its response. *)
Definition read_route_response (r : response) : outcome value :=
  if resp_ok r then resp_json r
  else
    match resp_json r with
    | Throw e => Throw e
    | Ok d =>
        match get_prop d "error" with
        | Throw e => Throw e
        | Ok x => Throw (new_Error (js_or x (VStr "Translation failed")))
        end
    end.

(** ** Serialization, an example *)

Example stringify_nested :
  stringify (VObj [("a", VNum 1); ("u", VUndef); ("l", VArr [VStr "x"; VUndef])])
  = Some ("{" ++ dquote ++ "a" ++ dquote ++ ":1," ++ dquote ++ "l" ++ dquote
          ++ ":[" ++ dquote ++ "x" ++ dquote ++ ",null]}").
Proof. reflexivity. Qed.

(** ** Objects: reading after writing *)

Lemma lookup_app_last (k k' : string) (v : value) (o : obj) :
  lookup k' (o ++ [(k, v)])%list = if String.eqb k' k then Some v else lookup k' o.
Proof.
  induction o as [|[k0 v0] o IH]; simpl.
  - reflexivity.
  - rewrite IH. destruct (String.eqb k' k); reflexivity.
Qed.

Lemma lookup_overwrite (k k' : string) (v : value) (o : obj) :
  lookup k'
    (map (fun kv : string * value =>
            if String.eqb k (fst kv) then (fst kv, v) else kv) o)
  = if String.eqb k' k
    then match lookup k o with Some _ => Some v | None => None end
    else lookup k' o.
Proof.
  induction o as [|[k0 v0] o IH].
  - simpl. destruct (String.eqb k' k); reflexivity.
  - cbn [map fst]. destruct (String.eqb k k0) eqn:E0; cbn [lookup]; rewrite IH.
    + apply String.eqb_eq in E0. subst k0.
      destruct (String.eqb k' k) eqn:E.
      * apply String.eqb_eq in E. subst k'. rewrite String.eqb_refl.
        destruct (lookup k o); reflexivity.
      * reflexivity.
    + destruct (String.eqb k' k) eqn:E.
      * apply String.eqb_eq in E. subst k'. rewrite E0.
        destruct (lookup k o); reflexivity.
      * reflexivity.
Qed.

Lemma lookup_cons_new (k k' : string) (v : value) (o : obj) :
  lookup k o = None ->
  lookup k' ((k, v) :: o) = if String.eqb k' k then Some v else lookup k' o.
Proof.
  intro E. cbn [lookup]. destruct (String.eqb k' k) eqn:Ek.
  - apply String.eqb_eq in Ek. subst k'. rewrite E. reflexivity.
  - destruct (lookup k' o); reflexivity.
Qed.

Lemma lookup_insert_index (n : Z) (k k' : string) (v : value) (o : obj) :
  lookup k o = None ->
  lookup k' (insert_index n k v o) = if String.eqb k' k then Some v else lookup k' o.
Proof.
  induction o as [|[k0 v0] o IH]; intro E.
  - reflexivity.
  - assert (E' : lookup k o = None).
    { cbn [lookup] in E. destruct (lookup k o); [discriminate | reflexivity]. }
    cbn [insert_index]. destruct (array_index k0) as [m|].
    + destruct (m <? n).
      * cbn [lookup]. rewrite (IH E').
        destruct (String.eqb k' k) eqn:Ek; [reflexivity|].
        reflexivity.
      * apply lookup_cons_new, E.
    + apply lookup_cons_new, E.
Qed.

Lemma lookup_obj_set (k k' : string) (v : value) (o : obj) :
  lookup k' (obj_set k v o) = if String.eqb k' k then Some v else lookup k' o.
Proof.
  unfold obj_set, has_key. destruct (lookup k o) eqn:E.
  - rewrite lookup_overwrite, E. reflexivity.
  - destruct (array_index k).
    + apply lookup_insert_index, E.
    + apply lookup_app_last.
Qed.

Lemma lookup_spread (k : string) (entries o : obj) :
  lookup k (fold_left (fun acc kv => obj_set (fst kv) (snd kv) acc) entries o)
  = match lookup k entries with Some v => Some v | None => lookup k o end.
Proof.
  revert o. induction entries as [|[k0 v0] r IH]; intro o; simpl.
  - reflexivity.
  - rewrite IH, lookup_obj_set.
    destruct (lookup k r); [reflexivity|].
    destruct (String.eqb k k0); reflexivity.
Qed.

Lemma lookup_add_item (k : string) (o : obj) (i : item) :
  lookup k (add_item o i)
  = match i with
    | Prop_ k0 v => if String.eqb k k0 then Some v else lookup k o
    | Spread s =>
        match lookup k (own_entries s) with Some v => Some v | None => lookup k o end
    end.
Proof.
  destruct i; simpl.
  - apply lookup_obj_set.
  - apply lookup_spread.
Qed.




(** ** Running the request gateway *)

Section Gateway.

Variable env : environment.
Variable transport : request -> outcome response.

Lemma getConfig_run (w : world) : getConfig env w = (Ok (resolved env w), w).
Proof.
  unfold resolved, getConfig.
  destruct (truthy (testConfig w)); [reflexivity|].
  destruct (negb (has_window env)); reflexivity.
Qed.

Lemma resolved_not_nullish (w : world) : nullish (resolved env w) = false.
Proof.
  unfold resolved, getConfig.
  destruct (truthy (testConfig w)) eqn:E; simpl.
  - destruct (testConfig w); simpl in *; congruence.
  - destruct (negb (has_window env)); reflexivity.
Qed.

Lemma get_prop_total (v : value) (k : string) :
  nullish v = false -> get_prop v k = Ok (get_prop_opt v k).
Proof.
  unfold get_prop_opt.
  destruct v; simpl; try discriminate; intros _; try reflexivity.
  - destruct (String.eqb k "length"); reflexivity.
  - destruct (String.eqb k "length"); reflexivity.
  - destruct (String.eqb k "length"); [reflexivity|].
    destruct (String.eqb k "name"); reflexivity.
Qed.

Lemma apiRequest_no_key (endpoint options : value) (w : world) :
  truthy (resolved_key env w) = false ->
  apiRequest env transport endpoint options w
  = (Throw (JsError missing_key_message), w).
Proof.
  intro Hk. unfold apiRequest, bind, lift.
  rewrite getConfig_run.
  rewrite !(get_prop_total _ _ (resolved_not_nullish w)).
  fold (resolved_key env w). rewrite Hk. reflexivity.
Qed.

Lemma apiRequest_bad_options (endpoint options : value) (w : world) (e : exn) :
  truthy (resolved_key env w) = true ->
  get_prop (with_default options (VObj [])) "headers" = Throw e ->
  apiRequest env transport endpoint options w = (Throw e, w).
Proof.
  intros Hk Hh. unfold apiRequest, bind, lift.
  rewrite getConfig_run.
  rewrite !(get_prop_total _ _ (resolved_not_nullish w)).
  fold (resolved_key env w). rewrite Hk. simpl. rewrite Hh. reflexivity.
Qed.

Lemma apiRequest_with_key (endpoint options caller_headers : value) (w : world) :
  truthy (resolved_key env w) = true ->
  get_prop (with_default options (VObj [])) "headers" = Ok caller_headers ->
  let req :=
    mkRequest (ToString (resolved_url env w) ++ "/api" ++ ToString endpoint)
              (init_of (resolved_key env w) (with_default options (VObj [])) caller_headers) in
  apiRequest env transport endpoint options w
  = (match transport req with
     | Ok r => read_response r
     | Throw e => Throw e
     end, sent w [req]).
Proof.
  intros Hk Hh req. unfold apiRequest, bind, lift.
  rewrite getConfig_run.
  rewrite !(get_prop_total _ _ (resolved_not_nullish w)).
  fold (resolved_key env w) (resolved_url env w). rewrite Hk. simpl negb. cbv iota.
  rewrite Hh. unfold fetch. fold (init_of (resolved_key env w) (with_default options (VObj [])) caller_headers).
  fold req. fold (sent w [req]).
  destruct (transport req) as [r|e]; [|reflexivity].
  unfold read_response, try_catch, throw.
  destruct (resp_ok r); simpl.
  - destruct (resp_json r); reflexivity.
  - destruct (resp_json r) as [d|e]; simpl.
    + destruct (get_prop d "message"); reflexivity.
    + reflexivity.
Qed.

End Gateway.

(** ** The request gateway: headers *)

(** C1, as stated, fails: a caller that supplies its own [X-API-Key] header
    replaces the configured key in the outgoing request. *)
Lemma apiRequest_caller_overrides_api_key :
  resolved_key server_env configured = VStr "sk_test_123" /\
  header_sent "X-API-Key"
    (fetched (snd (apiRequest server_env (stub_ok (VObj [])) (VStr "/translate")
                     (VObj [("method", VStr "POST");
                            ("headers", VObj [("X-API-Key", VStr "caller_key")])])
                     configured)))
  = [VStr "caller_key"] /\
  VStr "caller_key" <> resolved_key server_env configured.
Proof. split; [reflexivity|]. split; [reflexivity|]. discriminate. Qed.

(** C1, amended: with a key configured, [apiRequest] makes one call whose
    [headers] are the two mandatory headers overlaid with the caller's:
    every caller-supplied header is sent with the caller's value, also for
    [Content-Type] and [X-API-Key]; a header the caller does not supply has
    its mandatory value, and the caller's other options are passed on. *)
Theorem apiRequest_headers_merge
    (env : environment) (transport : request -> outcome response)
    (endpoint options caller_headers : value) (w : world) :
  truthy (resolved_key env w) = true ->
  get_prop (with_default options (VObj [])) "headers" = Ok caller_headers ->
  exists (init headers : obj),
    fetched (snd (apiRequest env transport endpoint options w))
    = (fetched w ++ [mkRequest (ToString (resolved_url env w) ++ "/api" ++ ToString endpoint)
                       (VObj init)])%list
    /\ lookup "headers" init = Some (VObj headers)
    /\ (forall k v, lookup k (own_entries caller_headers) = Some v ->
                    lookup k headers = Some v)
    /\ (forall k, lookup k (own_entries caller_headers) = None ->
                  lookup k headers
                  = lookup k [("Content-Type", VStr "application/json");
                              ("X-API-Key", resolved_key env w)])
    /\ (forall k, k <> "headers" ->
                  lookup k init = lookup k (own_entries (with_default options (VObj [])))).
Proof.
  intros Hk Hh.
  rewrite (apiRequest_with_key env transport endpoint options caller_headers w Hk Hh).
  cbn [snd sent fetched]. unfold init_of, object_literal.
  eexists. eexists. split; [reflexivity|].
  cbn [fold_left]. split; [|split; [|split]].
  - rewrite lookup_add_item. reflexivity.
  - intros k v Hc. rewrite !lookup_add_item. rewrite Hc. reflexivity.
  - intros k Hc. rewrite !lookup_add_item. rewrite Hc. cbn [lookup].
    destruct (String.eqb k "X-API-Key") eqn:E1; [|reflexivity].
    apply String.eqb_eq in E1. subst k. reflexivity.
  - intros k Hne. rewrite !lookup_add_item.
    apply String.eqb_neq in Hne. rewrite Hne. cbn [lookup].
    destruct (lookup k (own_entries (with_default options (VObj [])))); reflexivity.
Qed.

Lemma apiRequest_headers_merge_witness :
  truthy (resolved_key server_env configured) = true /\
  get_prop (with_default (VObj [("method", VStr "POST");
                                ("headers", VObj [("Accept", VStr "text/plain")])])
              (VObj [])) "headers"
  = Ok (VObj [("Accept", VStr "text/plain")]) /\
  exists (init headers : obj),
    fetched (snd (apiRequest server_env (stub_ok (VObj [])) (VStr "/translate")
                    (VObj [("method", VStr "POST");
                           ("headers", VObj [("Accept", VStr "text/plain")])])
                    configured))
    = ([] ++ [mkRequest (ToString (resolved_url server_env configured) ++ "/api"
                           ++ ToString (VStr "/translate")) (VObj init)])%list
    /\ lookup "headers" init = Some (VObj headers)
    /\ (forall k v, lookup k [("Accept", VStr "text/plain")] = Some v ->
                    lookup k headers = Some v)
    /\ (forall k, lookup k [("Accept", VStr "text/plain")] = None ->
                  lookup k headers
                  = lookup k [("Content-Type", VStr "application/json");
                              ("X-API-Key", resolved_key server_env configured)])
    /\ (forall k, k <> "headers" ->
                  lookup k init
                  = lookup k [("method", VStr "POST");
                              ("headers", VObj [("Accept", VStr "text/plain")])]).
Proof.
  split; [reflexivity|]. split; [reflexivity|].
  apply (apiRequest_headers_merge server_env (stub_ok (VObj [])) (VStr "/translate")
           (VObj [("method", VStr "POST");
                  ("headers", VObj [("Accept", VStr "text/plain")])])
           (VObj [("Accept", VStr "text/plain")]) configured);
    reflexivity.
Defined.

(** ** The key check *)

Ltac read_params H :=
  unfold bind, lift; rewrite ?(get_prop_total _ _ H); cbv beta iota.

Lemma translateJSON_delegates
    (env : environment) (transport : request -> outcome response)
    (arg : value) (w : world) :
  nullish arg = false ->
  translateJSON env transport arg w
  = apiRequest env transport (VStr "/translate")
      (object_literal
         [Prop_ "method" (VStr "POST");
          Prop_ "body"
            (JSON_stringify
               (object_literal
                  [Prop_ "text"
                     (if is_string (get_prop_opt arg "json") then get_prop_opt arg "json"
                      else JSON_stringify (get_prop_opt arg "json"));
                   Prop_ "sourceLanguage"
                     (with_default (get_prop_opt arg "sourceLanguage") (VStr "en"));
                   Prop_ "targetLanguages" (get_prop_opt arg "targetLanguages");
                   Prop_ "preservePlaceholders"
                     (with_default (get_prop_opt arg "preservePlaceholders") (VBool true));
                   Prop_ "enablePluralization"
                     (with_default (get_prop_opt arg "enablePluralization") (VBool true));
                   Prop_ "outputFormat" (VStr "json")]))]) w.
Proof.
  intro H. unfold translateJSON. read_params H. reflexivity.
Qed.

Lemma translate_runs
    (env : environment) (transport : request -> outcome response)
    (arg : value) (w : world) :
  nullish arg = false ->
  translate env transport arg w
  = if negb (truthy (get_prop_opt arg "text"))
    then (Throw (JsError "Text is required"), w)
    else if negb (truthy (get_prop_opt (get_prop_opt arg "targetLanguages") "length"))
    then (Throw (JsError "At least one target language is required"), w)
    else
      apiRequest env transport (VStr "/translate")
        (object_literal
           [Prop_ "method" (VStr "POST");
            Prop_ "body"
              (JSON_stringify
                 (object_literal
                    [Prop_ "text" (get_prop_opt arg "text");
                     Prop_ "sourceLanguage"
                       (with_default (get_prop_opt arg "sourceLanguage") (VStr "en"));
                     Prop_ "targetLanguages" (get_prop_opt arg "targetLanguages");
                     Prop_ "preservePlaceholders"
                       (with_default (get_prop_opt arg "preservePlaceholders") (VBool true));
                     Prop_ "enablePluralization"
                       (with_default (get_prop_opt arg "enablePluralization")
                          (VBool true))]))]) w.
Proof.
  intro H. unfold translate. read_params H.
  destruct (negb (truthy (get_prop_opt arg "text"))); [reflexivity|].
  destruct (negb (truthy (get_prop_opt (get_prop_opt arg "targetLanguages") "length")));
    reflexivity.
Qed.

Lemma nullish_params_throw (arg : value) (k : string) :
  nullish arg = true -> exists e, get_prop arg k = Throw e.
Proof. destruct arg; try discriminate; intros _; simpl; eexists; reflexivity. Qed.

(** C2, as stated, fails: [healthCheck] never looks at the key, and with
    none configured it still calls the health endpoint and returns what the
    transport answers. *)
Lemma healthCheck_ignores_missing_key :
  truthy (resolved_key server_env unconfigured) = false /\
  healthCheck server_env (stub_ok (VObj [("status", VStr "healthy")])) unconfigured
  = (Ok (VObj [("status", VStr "healthy")]),
     mkWorld VNull [mkRequest (default_api_url ++ "/api/health") VUndef] []).
Proof. split; reflexivity. Qed.

(** C2, amended: when the resolved configuration has a falsy [apiKey], the
    operations that go through [apiRequest] fail before any call to the
    transport.  [apiRequest], [translateJSON] and [translateLocaleFile] fail
    with the error "SHIPI18N_API_KEY is not set. ..."; so does [translate]
    once its own validation has passed; on any other input each of the
    three fails with its own error, still without a network call.
    ([healthCheck] is not among them.) *)
Theorem missing_key_fails_before_network
    (env : environment) (transport : request -> outcome response) (w : world) :
  truthy (resolved_key env w) = false ->
  String.prefix "SHIPI18N_API_KEY is not set" missing_key_message = true
  /\ (forall endpoint options,
        apiRequest env transport endpoint options w
        = (Throw (JsError missing_key_message), w))
  /\ (forall arg, nullish arg = false ->
        translateJSON env transport arg w = (Throw (JsError missing_key_message), w))
  /\ (forall arg, nullish arg = false ->
        translateLocaleFile env transport arg w
        = (Throw (JsError missing_key_message), w))
  /\ (forall arg, nullish arg = false ->
        truthy (get_prop_opt arg "text") = true ->
        truthy (get_prop_opt (get_prop_opt arg "targetLanguages") "length") = true ->
        translate env transport arg w = (Throw (JsError missing_key_message), w))
  /\ (forall arg, exists e, translate env transport arg w = (Throw e, w))
  /\ (forall arg, exists e, translateJSON env transport arg w = (Throw e, w))
  /\ (forall arg, exists e, translateLocaleFile env transport arg w = (Throw e, w)).
Proof.
  intro Hk.
  assert (HJ : forall arg, nullish arg = false ->
            translateJSON env transport arg w = (Throw (JsError missing_key_message), w))
    by (intros arg H; rewrite (translateJSON_delegates _ _ _ _ H);
        apply apiRequest_no_key; exact Hk).
  assert (HL : forall arg, nullish arg = false ->
            translateLocaleFile env transport arg w
            = (Throw (JsError missing_key_message), w)).
  { intros arg H. unfold translateLocaleFile. read_params H.
    rewrite HJ by reflexivity. reflexivity. }
  split; [reflexivity|].
  split; [intros; apply apiRequest_no_key; exact Hk|].
  split; [exact HJ|].
  split; [exact HL|].
  split.
  { intros arg H Ht Hl. rewrite (translate_runs _ _ _ _ H), Ht, Hl. simpl.
    apply apiRequest_no_key; exact Hk. }
  split; [|split].
  - intro arg. destruct (nullish arg) eqn:H.
    + destruct (nullish_params_throw arg "text" H) as [e He].
      exists e. unfold translate, bind, lift. rewrite He. reflexivity.
    + rewrite (translate_runs _ _ _ _ H).
      destruct (negb (truthy (get_prop_opt arg "text"))); [eexists; reflexivity|].
      destruct (negb (truthy (get_prop_opt (get_prop_opt arg "targetLanguages") "length")));
        [eexists; reflexivity|].
      eexists. apply apiRequest_no_key; exact Hk.
  - intro arg. destruct (nullish arg) eqn:H.
    + destruct (nullish_params_throw arg "json" H) as [e He].
      exists e. unfold translateJSON, bind, lift. rewrite He. reflexivity.
    + eexists. apply HJ, H.
  - intro arg. destruct (nullish arg) eqn:H.
    + destruct (nullish_params_throw arg "content" H) as [e He].
      exists e. unfold translateLocaleFile, bind, lift. rewrite He. reflexivity.
    + eexists. apply HL, H.
Qed.

Lemma missing_key_fails_before_network_witness :
  truthy (resolved_key server_env unconfigured) = false /\
  translate server_env (stub_ok (VObj []))
    (VObj [("text", VStr "Hello"); ("targetLanguages", VArr [VStr "es"])]) unconfigured
  = (Throw (JsError missing_key_message), unconfigured).
Proof.
  split; [reflexivity|].
  apply (missing_key_fails_before_network server_env (stub_ok (VObj [])) unconfigured);
    reflexivity.
Defined.

(** ** translate *)

Lemma no_languages (tl : value) :
  tl = VUndef \/ tl = VNull \/ tl = VArr [] ->
  truthy (get_prop_opt tl "length") = false.
Proof. intros [H|[H|H]]; subst; reflexivity. Qed.

Lemma some_languages (x : value) (l : list value) :
  truthy (get_prop_opt (VArr (x :: l)) "length") = true.
Proof.
  unfold get_prop_opt. simpl. reflexivity.
Qed.

Lemma apiRequest_post
    (env : environment) (transport : request -> outcome response)
    (body : value) (w : world) :
  truthy (resolved_key env w) = true ->
  apiRequest env transport (VStr "/translate")
    (object_literal [Prop_ "method" (VStr "POST"); Prop_ "body" body]) w
  = (match transport (post_request env w body) with
     | Ok r => read_response r
     | Throw e => Throw e
     end, sent w [post_request env w body]).
Proof.
  intro Hk.
  rewrite (apiRequest_with_key env transport _ _ VUndef w Hk) by reflexivity.
  reflexivity.
Qed.

(** C3: [translate] rejects a falsy [text] with "Text is required" and, for
    a truthy [text], an empty or missing [targetLanguages] with "At least one
    target language is required", in both cases without any call to the
    transport; when both are valid (and a key is configured) it makes exactly
    one call, a POST to [/api/translate], and on a success status it returns
    what the response parses to, unchanged. *)
Theorem translate_validates_then_posts
    (env : environment) (transport : request -> outcome response)
    (arg : value) (w : world) :
  nullish arg = false ->
  (truthy (get_prop_opt arg "text") = false ->
     translate env transport arg w = (Throw (JsError "Text is required"), w))
  /\ (truthy (get_prop_opt arg "text") = true ->
      (get_prop_opt arg "targetLanguages" = VUndef
       \/ get_prop_opt arg "targetLanguages" = VNull
       \/ get_prop_opt arg "targetLanguages" = VArr []) ->
      translate env transport arg w
      = (Throw (JsError "At least one target language is required"), w))
  /\ (truthy (get_prop_opt arg "text") = true ->
      truthy (get_prop_opt (get_prop_opt arg "targetLanguages") "length") = false ->
      translate env transport arg w
      = (Throw (JsError "At least one target language is required"), w))
  /\ (truthy (get_prop_opt arg "text") = true ->
      truthy (get_prop_opt (get_prop_opt arg "targetLanguages") "length") = true ->
      truthy (resolved_key env w) = true ->
      exists body,
        snd (translate env transport arg w) = sent w [post_request env w body]
        /\ get_prop_opt (req_init (post_request env w body)) "method" = VStr "POST"
        /\ (forall r, transport (post_request env w body) = Ok r ->
                      resp_ok r = true ->
                      fst (translate env transport arg w) = resp_json r)).
Proof.
  intro H. rewrite (translate_runs _ _ _ _ H).
  split; [intro Ht; rewrite Ht; reflexivity|].
  split; [intros Ht Hl; rewrite Ht, (no_languages _ Hl); reflexivity|].
  split; [intros Ht Hl; rewrite Ht, Hl; reflexivity|].
  intros Ht Hl Hk. rewrite Ht, Hl. cbn [negb].
  eexists. rewrite (apiRequest_post _ _ _ _ Hk). cbn [fst snd].
  split; [reflexivity|]. split; [reflexivity|].
  intros r Hr Hok. rewrite Hr. unfold read_response. rewrite Hok. reflexivity.
Qed.

Lemma translate_validates_then_posts_witness :
  translate server_env (stub_ok hola)
    (VObj [("text", VStr ""); ("targetLanguages", VArr [VStr "es"])]) configured
  = (Throw (JsError "Text is required"), configured)
  /\ translate server_env (stub_ok hola)
       (VObj [("text", VStr "Hello"); ("targetLanguages", VArr [])]) configured
     = (Throw (JsError "At least one target language is required"), configured)
  /\ fst (translate server_env (stub_ok hola)
            (VObj [("text", VStr "Hello"); ("targetLanguages", VArr [VStr "es"])])
            configured)
     = Ok hola.
Proof.
  split; [|split].
  - apply (translate_validates_then_posts server_env (stub_ok hola)
             (VObj [("text", VStr ""); ("targetLanguages", VArr [VStr "es"])])
             configured eq_refl); reflexivity.
  - apply (proj1 (proj2 (translate_validates_then_posts server_env (stub_ok hola)
             (VObj [("text", VStr "Hello"); ("targetLanguages", VArr [])])
             configured eq_refl))); [reflexivity | right; right; reflexivity].
  - destruct (proj2 (proj2 (proj2 (translate_validates_then_posts server_env (stub_ok hola)
             (VObj [("text", VStr "Hello"); ("targetLanguages", VArr [VStr "es"])])
             configured eq_refl))) eq_refl eq_refl eq_refl) as (body & _ & _ & Hr).
    apply (Hr (mkResponse true 200 (Ok hola))); reflexivity.
Defined.

(** C8: for a truthy [text] and a non-empty [targetLanguages], the body
    [translate] sends carries [sourceLanguage] "en", [preservePlaceholders]
    [true] and [enablePluralization] [true] wherever the caller left the
    option unspecified, and the caller's value where it was given. *)
Theorem translate_defaults
    (env : environment) (transport : request -> outcome response)
    (arg : value) (w : world) :
  nullish arg = false ->
  truthy (get_prop_opt arg "text") = true ->
  truthy (get_prop_opt (get_prop_opt arg "targetLanguages") "length") = true ->
  truthy (resolved_key env w) = true ->
  exists sourceLanguage preservePlaceholders enablePluralization,
    snd (translate env transport arg w)
    = sent w [post_request env w
                (JSON_stringify
                   (VObj [("text", get_prop_opt arg "text");
                          ("sourceLanguage", sourceLanguage);
                          ("targetLanguages", get_prop_opt arg "targetLanguages");
                          ("preservePlaceholders", preservePlaceholders);
                          ("enablePluralization", enablePluralization)]))]
    /\ (get_prop_opt arg "sourceLanguage" = VUndef -> sourceLanguage = VStr "en")
    /\ (get_prop_opt arg "preservePlaceholders" = VUndef ->
        preservePlaceholders = VBool true)
    /\ (get_prop_opt arg "enablePluralization" = VUndef ->
        enablePluralization = VBool true)
    /\ (get_prop_opt arg "sourceLanguage" <> VUndef ->
        sourceLanguage = get_prop_opt arg "sourceLanguage")
    /\ (get_prop_opt arg "preservePlaceholders" <> VUndef ->
        preservePlaceholders = get_prop_opt arg "preservePlaceholders")
    /\ (get_prop_opt arg "enablePluralization" <> VUndef ->
        enablePluralization = get_prop_opt arg "enablePluralization").
Proof.
  intros H Ht Hl Hk.
  exists (with_default (get_prop_opt arg "sourceLanguage") (VStr "en")),
         (with_default (get_prop_opt arg "preservePlaceholders") (VBool true)),
         (with_default (get_prop_opt arg "enablePluralization") (VBool true)).
  split.
  - rewrite (translate_runs _ _ _ _ H), Ht, Hl. cbn [negb].
    rewrite (apiRequest_post _ _ _ _ Hk). reflexivity.
  - repeat split; try (intro E; rewrite E; reflexivity);
      intro E; match goal with
               | |- with_default ?v _ = _ => destruct v; try reflexivity; congruence
               end.
Qed.

Lemma translate_defaults_witness :
  fetched (snd (translate server_env (stub_ok (VObj [("es", VObj [])]))
                  (VObj [("text", VStr "Hello"); ("targetLanguages", VArr [VStr "es"])])
                  configured))
  = [post_request server_env configured
       (JSON_stringify
          (VObj [("text", VStr "Hello");
                 ("sourceLanguage", VStr "en");
                 ("targetLanguages", VArr [VStr "es"]);
                 ("preservePlaceholders", VBool true);
                 ("enablePluralization", VBool true)]))].
Proof.
  destruct (translate_defaults server_env (stub_ok (VObj [("es", VObj [])]))
              (VObj [("text", VStr "Hello"); ("targetLanguages", VArr [VStr "es"])])
              configured eq_refl eq_refl eq_refl eq_refl)
    as (sl & pp & ep & Hs & Hsl & Hpp & Hep & _).
  rewrite Hs, (Hsl eq_refl), (Hpp eq_refl), (Hep eq_refl). reflexivity.
Defined.

(** ** translateJSON *)

(** C4: the body [translateJSON] sends has as [text] the [json] argument
    itself when that is a string and otherwise [JSON.stringify(json)] (for
    the object with the one member a = 1, the text [{"a":1}]), and has
    [outputFormat] "json". *)
Theorem translateJSON_body
    (env : environment) (transport : request -> outcome response)
    (arg : value) (w : world) :
  nullish arg = false ->
  truthy (resolved_key env w) = true ->
  exists body : obj,
    snd (translateJSON env transport arg w)
    = sent w [post_request env w (JSON_stringify (VObj body))]
    /\ (forall s, get_prop_opt arg "json" = VStr s -> lookup "text" body = Some (VStr s))
    /\ (is_string (get_prop_opt arg "json") = false ->
        lookup "text" body = Some (JSON_stringify (get_prop_opt arg "json")))
    /\ (get_prop_opt arg "json" = VObj [("a", VNum 1)] ->
        lookup "text" body = Some (VStr ("{" ++ dquote ++ "a" ++ dquote ++ ":1}")))
    /\ lookup "outputFormat" body = Some (VStr "json").
Proof.
  intros H Hk.
  rewrite (translateJSON_delegates _ _ _ _ H), (apiRequest_post _ _ _ _ Hk).
  eexists. split; [reflexivity|]. cbn [lookup String.eqb Ascii.eqb Bool.eqb].
  split; [intros s E; rewrite E; reflexivity|].
  split; [intro E; rewrite E; reflexivity|].
  split; [intro E; rewrite E; reflexivity|].
  reflexivity.
Qed.

Lemma translateJSON_body_witness :
  exists body : obj,
    snd (translateJSON server_env (stub_ok (VObj [("es", VObj [("a", VNum 1)])]))
           (VObj [("json", VObj [("a", VNum 1)]); ("targetLanguages", VArr [VStr "es"])])
           configured)
    = sent configured [post_request server_env configured (JSON_stringify (VObj body))]
    /\ lookup "text" body = Some (VStr ("{" ++ dquote ++ "a" ++ dquote ++ ":1}"))
    /\ lookup "outputFormat" body = Some (VStr "json").
Proof.
  destruct (translateJSON_body server_env (stub_ok (VObj [("es", VObj [("a", VNum 1)])]))
              (VObj [("json", VObj [("a", VNum 1)]);
                     ("targetLanguages", VArr [VStr "es"])])
              configured eq_refl eq_refl)
    as (body & Hs & _ & _ & Ha & Hf).
  exists body. split; [exact Hs|]. split; [exact (Ha eq_refl) | exact Hf].
Defined.

(** The request of the test "accepts object JSON input", as it goes out. *)
Example translateJSON_on_the_wire :
  fetched (snd (translateJSON server_env (stub_ok (VObj [("es", VObj [("a", VNum 1)])]))
                  (VObj [("json", VObj [("a", VNum 1)]);
                         ("targetLanguages", VArr [VStr "es"])])
                  configured))
  = [mkRequest "https://api.test.com/api/translate"
       (VObj [("method", VStr "POST");
              ("body",
               VStr ("{" ++ quoted "text" ++ ":" ++ dquote ++ "{" ++ escaped "a" ++ ":1}"
                     ++ dquote ++ ","
                     ++ quoted "sourceLanguage" ++ ":" ++ quoted "en" ++ ","
                     ++ quoted "targetLanguages" ++ ":[" ++ quoted "es" ++ "],"
                     ++ quoted "preservePlaceholders" ++ ":true,"
                     ++ quoted "enablePluralization" ++ ":true,"
                     ++ quoted "outputFormat" ++ ":" ++ quoted "json" ++ "}"));
              ("headers", VObj [("Content-Type", VStr "application/json");
                                ("X-API-Key", VStr "sk_test_123")])])].
Proof. reflexivity. Qed.

(** ** translateLocaleFile *)

Lemma with_default_idem (v d : value) :
  with_default (with_default v d) d = with_default v d.
Proof. destruct v; try reflexivity. simpl. destruct d; reflexivity. Qed.

Lemma translateLocaleFile_runs
    (env : environment) (transport : request -> outcome response)
    (arg : value) (w : world) :
  nullish arg = false ->
  truthy (resolved_key env w) = true ->
  translateLocaleFile env transport arg w
  = (match transport (post_request env w (locale_body arg)) with
     | Throw e => Throw e
     | Ok r =>
         match read_response r with
         | Throw e => Throw e
         | Ok result =>
             match iterate (get_prop_opt arg "targetLanguages") with
             | Throw e => Throw e
             | Ok langs =>
                 match pick_languages result langs [] with
                 | Throw e => Throw e
                 | Ok translations => Ok (VObj translations)
                 end
             end
         end
     end, sent w [post_request env w (locale_body arg)]).
Proof.
  intros H Hk. unfold translateLocaleFile. read_params H.
  rewrite translateJSON_delegates by reflexivity.
  rewrite (apiRequest_post _ _ _ _ Hk).
  match goal with |- context [get_prop_opt ?l "json"] => set (lit := l) end.
  change (get_prop_opt lit "json") with (get_prop_opt arg "content").
  change (get_prop_opt lit "targetLanguages") with (get_prop_opt arg "targetLanguages").
  change (get_prop_opt lit "sourceLanguage")
    with (with_default (get_prop_opt arg "sourceLanguage") (VStr "en")).
  change (get_prop_opt lit "preservePlaceholders")
    with (with_default (get_prop_opt arg "preservePlaceholders") (VBool true)).
  change (get_prop_opt lit "enablePluralization")
    with (with_default (get_prop_opt arg "enablePluralization") (VBool true)).
  clear lit. rewrite !with_default_idem.
  change (post_request env w _) with (post_request env w (locale_body arg)).
  destruct (transport (post_request env w (locale_body arg))) as [r|e]; [|reflexivity].
  destruct (read_response r) as [result|e]; [|reflexivity].
  unfold ret.
  destruct (iterate (get_prop_opt arg "targetLanguages")) as [langs|e]; [|reflexivity].
  destruct (pick_languages result langs []); reflexivity.
Qed.








(** C5, at an input where the code departs from it: the response is the
    empty object and the one requested language is "constructor".  The
    response has no such key, yet the returned object has it: the test
    [result[lang]] finds the member every object inherits and copies it. *)
Theorem translateLocaleFile_copies_inherited_member :
  lookup "constructor" ([] : obj) = None
  /\ translateLocaleFile server_env (stub_ok (VObj []))
       (VObj [("content", VObj [("t", VStr "x")]);
              ("targetLanguages", VArr [VStr "constructor"])])
       configured
     = (Ok (VObj [("constructor", VNative "Object" 1)]),
        sent configured
          [post_request server_env configured
             (locale_body (VObj [("content", VObj [("t", VStr "x")]);
                                 ("targetLanguages", VArr [VStr "constructor"])]))]).
Proof. split; reflexivity. Qed.



(** ** The request gateway: failures *)




(** ** The proxy route *)

Lemma POST_handler (e : exn) (w : world) :
  bind (console_error e)
    (fun _ =>
       lift (Response_json
               (object_literal
                  [Prop_ "error" (js_or (VStr (message_of e)) (VStr "Translation failed"))])
               500)) w
  = (Ok (mkHttp 500 (error_body (failure_message e))), logged w e).
Proof.
  unfold bind, console_error, lift, logged, error_body, failure_message, js_or.
  cbn [truthy]. destruct (String.eqb (message_of e) ""); reflexivity.
Qed.

Lemma POST_unreadable (env : environment) (transport : request -> outcome response)
    (e : exn) (w : world) :
  POST env transport (Throw e) w
  = (Ok (mkHttp 500 (error_body (failure_message e))), logged w e).
Proof. unfold POST, try_catch. cbn [bind lift]. apply POST_handler. Qed.

Lemma POST_nullish (env : environment) (transport : request -> outcome response)
    (body : value) (w : world) :
  nullish body = true ->
  exists e, POST env transport (Ok body) w
            = (Ok (mkHttp 500 (error_body (failure_message e))), logged w e).
Proof.
  intro H. destruct (nullish_params_throw body "text" H) as [e He].
  exists e. unfold POST, try_catch. unfold bind at 1 2. unfold lift at 1 2.
  rewrite He. apply POST_handler.
Qed.

Lemma POST_valid_runs (env : environment) (transport : request -> outcome response)
    (body : value) (w : world) :
  nullish body = false ->
  truthy (get_prop_opt body "text") = true ->
  truthy (get_prop_opt body "targetLanguages") = true ->
  get_prop_opt (get_prop_opt body "targetLanguages") "length" <> VNum 0 ->
  POST env transport (Ok body) w
  = match dispatched env transport body w with
    | (Ok result, w') =>
        match stringify result with
        | Some _ => (Ok (mkHttp 200 result), w')
        | None =>
            (Ok (mkHttp 500 (error_body "Value is not JSON serializable")),
             logged w' (TypeError "Value is not JSON serializable"))
        end
    | (Throw e, w') => (Ok (mkHttp 500 (error_body (failure_message e))), logged w' e)
    end.
Proof.
  intros H Ht Hl Hn. unfold POST, try_catch. read_params H.
  rewrite Ht, Hl. cbn [negb orb].
  assert (E : strict_eq_num (get_prop_opt (get_prop_opt body "targetLanguages") "length") 0
              = false).
  { destruct (get_prop_opt (get_prop_opt body "targetLanguages") "length");
      try reflexivity.
    cbn [strict_eq_num]. destruct (Z.eqb_spec n 0); [subst; congruence | reflexivity]. }
  rewrite E. fold (dispatched env transport body).
  destruct (dispatched env transport body w) as [[result|e] w'].
  - unfold Response_json. destruct (stringify result); [reflexivity|].
    apply POST_handler.
  - apply POST_handler.
Qed.

(** C7, as stated, fails: a body that is the JSON value [null] has no
    [text], yet the answer is 500, not 400: reading [text] off it throws
    inside the [try], and the [catch] answers.  So it is for a body that is
    not JSON at all. *)
Lemma POST_null_body_is_answered_500 :
  get_prop_opt VNull "text" = VUndef
  /\ (exists message,
        POST server_env (stub_ok hola) (Ok VNull) configured
        = (Ok (mkHttp 500 (error_body message)),
           logged configured (TypeError message)))
  /\ POST server_env (stub_ok hola) (Throw (SyntaxError "Unexpected end of JSON input"))
       configured
     = (Ok (mkHttp 500 (error_body "Unexpected end of JSON input")),
        logged configured (SyntaxError "Unexpected end of JSON input")).
Proof.
  split; [reflexivity|]. split; [eexists; reflexivity | reflexivity].
Qed.

(** C7, amended: for a request whose body parses to a JSON value other than
    [null], the route answers 400 "Text is required" when [text] is falsy;
    else 400 "At least one target language is required" when
    [targetLanguages] is missing or empty; else, when the translation it
    dispatches to throws, 500 with the thrown message, or "Translation
    failed" for an empty one; and when the translation succeeds, 200 with
    its result unchanged.  A body that cannot be read as JSON, or that is
    [null], is answered 500 in the same way, with the message of what was
    thrown, before any validation. *)
Theorem POST_status_mapping
    (env : environment) (transport : request -> outcome response) (w : world) :
  (forall e,
     POST env transport (Throw e) w
     = (Ok (mkHttp 500 (error_body (failure_message e))), logged w e))
  /\ (forall body, nullish body = true ->
        exists e, POST env transport (Ok body) w
                  = (Ok (mkHttp 500 (error_body (failure_message e))), logged w e))
  /\ (forall body, nullish body = false ->
        (truthy (get_prop_opt body "text") = false ->
           POST env transport (Ok body) w
           = (Ok (mkHttp 400 (error_body "Text is required")), w))
        /\ (truthy (get_prop_opt body "text") = true ->
            truthy (get_prop_opt body "targetLanguages") = false
            \/ get_prop_opt (get_prop_opt body "targetLanguages") "length" = VNum 0 ->
            POST env transport (Ok body) w
            = (Ok (mkHttp 400 (error_body "At least one target language is required")),
               w))
        /\ (truthy (get_prop_opt body "text") = true ->
            truthy (get_prop_opt body "targetLanguages") = true ->
            get_prop_opt (get_prop_opt body "targetLanguages") "length" <> VNum 0 ->
            (forall e w', dispatched env transport body w = (Throw e, w') ->
               POST env transport (Ok body) w
               = (Ok (mkHttp 500 (error_body (failure_message e))), logged w' e))
            /\ (forall result w', dispatched env transport body w = (Ok result, w') ->
                  stringify result <> None ->
                  POST env transport (Ok body) w = (Ok (mkHttp 200 result), w')))).
Proof.
  split; [intro e; apply POST_unreadable|].
  split; [intros body H; apply POST_nullish, H|].
  intros body H.
  split; [intro Ht; unfold POST, try_catch; read_params H; rewrite Ht; reflexivity|].
  split.
  { intros Ht [Hl|Hl]; unfold POST, try_catch; read_params H; rewrite Ht, Hl;
      cbn [negb orb strict_eq_num Z.eqb]; rewrite ?orb_true_r; reflexivity. }
  intros Ht Hl Hn. rewrite (POST_valid_runs env transport body w H Ht Hl Hn).
  split.
  - intros e w' Hd. rewrite Hd. reflexivity.
  - intros result w' Hd Hr. rewrite Hd.
    destruct (stringify result); [reflexivity | congruence].
Qed.

Lemma POST_status_mapping_witness :
  POST server_env (stub_ok hola) (Ok (VObj [])) configured
  = (Ok (mkHttp 400 (error_body "Text is required")), configured)
  /\ POST server_env (stub_ok hola) (Ok (VObj [("text", VStr "x")])) configured
     = (Ok (mkHttp 400 (error_body "At least one target language is required")), configured)
  /\ fst (POST server_env (stub_throwing (TypeError "fetch failed"))
            (Ok (VObj [("text", VStr "x"); ("targetLanguages", VArr [VStr "es"])]))
            configured)
     = Ok (mkHttp 500 (error_body "fetch failed"))
  /\ fst (POST server_env (stub_ok hola)
            (Ok (VObj [("text", VStr "Hello"); ("targetLanguages", VArr [VStr "es"])]))
            configured)
     = Ok (mkHttp 200 hola).
Proof.
  split; [|split; [|split]].
  - apply (proj2 (proj2 (POST_status_mapping server_env (stub_ok hola) configured))
             (VObj []) eq_refl).
    reflexivity.
  - apply (proj1 (proj2 (proj2 (proj2 (POST_status_mapping server_env (stub_ok hola)
                                         configured))
                           (VObj [("text", VStr "x")]) eq_refl)));
      [reflexivity | left; reflexivity].
  - rewrite (proj1 (proj2 (proj2 (proj2 (proj2 (POST_status_mapping server_env
                (stub_throwing (TypeError "fetch failed")) configured))
                (VObj [("text", VStr "x"); ("targetLanguages", VArr [VStr "es"])])
                eq_refl)) eq_refl eq_refl ltac:(discriminate))
               (TypeError "fetch failed") _ eq_refl).
    reflexivity.
  - rewrite (proj2 (proj2 (proj2 (proj2 (proj2 (POST_status_mapping server_env
                (stub_ok hola) configured))
                (VObj [("text", VStr "Hello"); ("targetLanguages", VArr [VStr "es"])])
                eq_refl)) eq_refl eq_refl ltac:(discriminate))
               hola _ eq_refl ltac:(discriminate)).
    reflexivity.
Defined.

(** ** No hidden state *)

Lemma steady_repeatable {A} (m : M A) : steady m -> repeatable m.
Proof.
  intros Hm w.
  destruct (Hm w w eq_refl) as (_ & Hc & _).
  destruct (Hm w (snd (m w)) (eq_sym Hc)) as (Hf & _ & calls & H1 & H2).
  destruct (Hm (snd (m w)) w Hc) as (_ & Hc2 & _).
  split; [symmetry; exact Hf|]. split; [exact Hc|].
  split; [rewrite Hc2; exact Hc|].
  exists calls. split; [exact H1|]. rewrite H2, H1, app_assoc. reflexivity.
Qed.

Lemma steady_ret {A} (a : A) : steady (ret a).
Proof.
  intros w w' E. repeat split. exists []. cbn. rewrite !app_nil_r. split; reflexivity.
Qed.

Lemma steady_throw {A} (e : exn) : steady (@throw A e).
Proof.
  intros w w' E. repeat split. exists []. cbn. rewrite !app_nil_r. split; reflexivity.
Qed.

Lemma steady_lift {A} (o : outcome A) : steady (lift o).
Proof.
  intros w w' E. repeat split. exists []. cbn. rewrite !app_nil_r. split; reflexivity.
Qed.

Lemma steady_bind {A B} (m : M A) (k : A -> M B) :
  steady m -> (forall a, steady (k a)) -> steady (bind m k).
Proof.
  intros Hm Hk w w' E. unfold bind.
  destruct (Hm w w' E) as (Hf & Hc & calls & H1 & H2).
  destruct (Hm w' w (eq_sym E)) as (_ & Hc' & _).
  destruct (m w) as [o w1], (m w') as [o' w1']. cbn [fst snd] in *. subst o'.
  destruct o as [a|e].
  - assert (E1 : testConfig w1 = testConfig w1') by congruence.
    destruct (Hk a w1 w1' E1) as (Kf & Kc & calls2 & K1 & K2).
    split; [exact Kf|]. split; [congruence|].
    exists (calls ++ calls2)%list. rewrite K1, K2, H1, H2, !app_assoc.
    split; reflexivity.
  - cbn [fst snd]. split; [reflexivity|]. split; [exact Hc|].
    exists calls. split; assumption.
Qed.

Lemma steady_try_catch {A} (m : M A) (h : exn -> M A) :
  steady m -> (forall e, steady (h e)) -> steady (try_catch m h).
Proof.
  intros Hm Hh w w' E. unfold try_catch.
  destruct (Hm w w' E) as (Hf & Hc & calls & H1 & H2).
  destruct (Hm w' w (eq_sym E)) as (_ & Hc' & _).
  destruct (m w) as [o w1], (m w') as [o' w1']. cbn [fst snd] in *. subst o'.
  destruct o as [a|e].
  - cbn [fst snd]. split; [reflexivity|]. split; [exact Hc|].
    exists calls. split; assumption.
  - assert (E1 : testConfig w1 = testConfig w1') by congruence.
    destruct (Hh e w1 w1' E1) as (Kf & Kc & calls2 & K1 & K2).
    split; [exact Kf|]. split; [congruence|].
    exists (calls ++ calls2)%list. rewrite K1, K2, H1, H2, !app_assoc.
    split; reflexivity.
Qed.

Section Steady.

Variable env : environment.
Variable transport : request -> outcome response.

Lemma steady_fetch (url : string) (init : value) : steady (fetch transport url init).
Proof.
  intros w w' E. unfold fetch. cbn [fst snd testConfig fetched].
  repeat split. exists [mkRequest url init]. split; reflexivity.
Qed.

Lemma steady_console_error (e : exn) : steady (console_error e).
Proof.
  intros w w' E. unfold console_error. cbn [fst snd testConfig fetched].
  repeat split. exists []. rewrite !app_nil_r. split; reflexivity.
Qed.

Lemma steady_getConfig : steady (getConfig env).
Proof.
  intros w w' E. rewrite !getConfig_run. cbn [fst snd].
  split.
  - unfold resolved, getConfig. rewrite E.
    destruct (truthy (testConfig w')); [reflexivity|].
    destruct (negb (has_window env)); reflexivity.
  - split; [reflexivity|]. exists []. rewrite !app_nil_r. split; reflexivity.
Qed.

Ltac steady_step :=
  first
    [ apply steady_bind; [|intro]
    | apply steady_try_catch; [|intro]
    | apply steady_ret
    | apply steady_throw
    | apply steady_lift
    | apply steady_fetch
    | apply steady_console_error
    | apply steady_getConfig
    | progress cbv zeta
    | match goal with |- steady (if ?c then _ else _) => destruct c end ].

Lemma steady_apiRequest (endpoint options : value) :
  steady (apiRequest env transport endpoint options).
Proof. unfold apiRequest. repeat steady_step. Qed.

Lemma steady_translate (arg : value) : steady (translate env transport arg).
Proof. unfold translate. repeat (apply steady_apiRequest || steady_step). Qed.

Lemma steady_translateJSON (arg : value) : steady (translateJSON env transport arg).
Proof. unfold translateJSON. repeat (apply steady_apiRequest || steady_step). Qed.

Lemma steady_translateLocaleFile (arg : value) :
  steady (translateLocaleFile env transport arg).
Proof. unfold translateLocaleFile. repeat (apply steady_translateJSON || steady_step). Qed.

Lemma steady_healthCheck : steady (healthCheck env transport).
Proof. unfold healthCheck. repeat steady_step. Qed.

Lemma steady_POST (request_json : outcome value) :
  steady (POST env transport request_json).
Proof.
  unfold POST.
  repeat (apply steady_translateJSON || apply steady_translate || steady_step).
Qed.

End Steady.

(** C9: with the transport a fixed function of the request, each of
    [translate], [translateJSON] and [translateLocaleFile], called twice in a
    row with the same input, gives the same outcome twice and makes the same
    calls twice; none of the client's operations, nor the route, changes
    [testConfig], which only [setConfig] and [resetConfig] assign. *)
Theorem operations_repeatable
    (env : environment) (transport : request -> outcome response) (arg : value) :
  repeatable (translate env transport arg)
  /\ repeatable (translateJSON env transport arg)
  /\ repeatable (translateLocaleFile env transport arg)
  /\ (forall w endpoint options,
        testConfig (snd (apiRequest env transport endpoint options w)) = testConfig w)
  /\ (forall w, testConfig (snd (healthCheck env transport w)) = testConfig w)
  /\ (forall w, testConfig (snd (getConfig env w)) = testConfig w)
  /\ (forall w locale namespace,
        testConfig (snd (getTranslations locale namespace w)) = testConfig w)
  /\ (forall w request_json,
        testConfig (snd (POST env transport request_json w)) = testConfig w)
  /\ (forall w newConfig, testConfig (snd (setConfig newConfig w)) = newConfig)
  /\ (forall w, testConfig (snd (resetConfig w)) = VNull).
Proof.
  split; [apply steady_repeatable, steady_translate|].
  split; [apply steady_repeatable, steady_translateJSON|].
  split; [apply steady_repeatable, steady_translateLocaleFile|].
  split; [intros w endpoint options;
          apply (steady_apiRequest env transport endpoint options w w eq_refl)|].
  split; [intro w; apply (steady_healthCheck env transport w w eq_refl)|].
  split; [intro w; apply (steady_getConfig env w w eq_refl)|].
  repeat split.
  intros w request_json. apply (steady_POST env transport request_json w w eq_refl).
Qed.

Lemma operations_repeatable_witness :
  fst (translate server_env (stub_ok hola)
         (VObj [("text", VStr "Hello"); ("targetLanguages", VArr [VStr "es"])])
         (snd (translate server_env (stub_ok hola)
                 (VObj [("text", VStr "Hello"); ("targetLanguages", VArr [VStr "es"])])
                 configured)))
  = fst (translate server_env (stub_ok hola)
           (VObj [("text", VStr "Hello"); ("targetLanguages", VArr [VStr "es"])])
           configured).
Proof.
  apply (proj1 (operations_repeatable server_env (stub_ok hola)
                  (VObj [("text", VStr "Hello"); ("targetLanguages", VArr [VStr "es"])]))
           configured).
Defined.

(** ** Counting the calls to the transport *)

Lemma calls_bind {A B} (a b : nat) (m : M A) (k : A -> M B) :
  calls_at_most a m -> (forall x, calls_at_most b (k x)) ->
  calls_at_most (a + b) (bind m k).
Proof.
  intros Hm Hk w. unfold bind.
  destruct (Hm w) as (c1 & H1 & L1). destruct (m w) as [[x|e] w1]; cbn [snd] in *.
  - destruct (Hk x w1) as (c2 & H2 & L2).
    exists (c1 ++ c2)%list. rewrite H2, H1, app_assoc, length_app. split; [reflexivity | lia].
  - exists c1. split; [exact H1 | lia].
Qed.

Lemma calls_try_catch {A} (a b : nat) (m : M A) (h : exn -> M A) :
  calls_at_most a m -> (forall e, calls_at_most b (h e)) ->
  calls_at_most (a + b) (try_catch m h).
Proof.
  intros Hm Hh w. unfold try_catch.
  destruct (Hm w) as (c1 & H1 & L1). destruct (m w) as [[x|e] w1]; cbn [snd] in *.
  - exists c1. split; [exact H1 | lia].
  - destruct (Hh e w1) as (c2 & H2 & L2).
    exists (c1 ++ c2)%list. rewrite H2, H1, app_assoc, length_app. split; [reflexivity | lia].
Qed.

Lemma calls_weaken {A} (a b : nat) (m : M A) :
  (a <= b)%nat -> calls_at_most a m -> calls_at_most b m.
Proof.
  intros Hab Hm w. destruct (Hm w) as (c & H & L). exists c. split; [exact H | lia].
Qed.

Lemma quiet_ret {A} (x : A) : calls_at_most 0 (ret x).
Proof. intro w. exists []. cbn. rewrite app_nil_r. split; [reflexivity | lia]. Qed.

Lemma quiet_throw {A} (e : exn) : calls_at_most 0 (@throw A e).
Proof. intro w. exists []. cbn. rewrite app_nil_r. split; [reflexivity | lia]. Qed.

Lemma quiet_lift {A} (o : outcome A) : calls_at_most 0 (lift o).
Proof. intro w. exists []. cbn. rewrite app_nil_r. split; [reflexivity | lia]. Qed.

Lemma quiet_console_error (e : exn) : calls_at_most 0 (console_error e).
Proof. intro w. exists []. cbn. rewrite app_nil_r. split; [reflexivity | lia]. Qed.

Lemma quiet_getConfig (env : environment) : calls_at_most 0 (getConfig env).
Proof.
  intro w. rewrite getConfig_run. exists []. cbn. rewrite app_nil_r.
  split; [reflexivity | lia].
Qed.

Lemma once_fetch (transport : request -> outcome response) (url : string) (init : value) :
  calls_at_most 1 (fetch transport url init).
Proof. intro w. exists [mkRequest url init]. cbn. split; [reflexivity | lia]. Qed.

Lemma quiet_bind {A B} (m : M A) (k : A -> M B) :
  calls_at_most 0 m -> (forall x, calls_at_most 0 (k x)) -> calls_at_most 0 (bind m k).
Proof. intros Hm Hk. exact (calls_bind 0 0 m k Hm Hk). Qed.

Lemma quiet_try_catch {A} (m : M A) (h : exn -> M A) :
  calls_at_most 0 m -> (forall e, calls_at_most 0 (h e)) ->
  calls_at_most 0 (try_catch m h).
Proof. intros Hm Hh. exact (calls_try_catch 0 0 m h Hm Hh). Qed.

Lemma once_after_quiet {A B} (m : M A) (k : A -> M B) :
  calls_at_most 0 m -> (forall x, calls_at_most 1 (k x)) -> calls_at_most 1 (bind m k).
Proof. intros Hm Hk. exact (calls_bind 0 1 m k Hm Hk). Qed.

Lemma once_then_quiet {A B} (m : M A) (k : A -> M B) :
  calls_at_most 1 m -> (forall x, calls_at_most 0 (k x)) -> calls_at_most 1 (bind m k).
Proof. intros Hm Hk. exact (calls_bind 1 0 m k Hm Hk). Qed.

Lemma once_caught_quietly {A} (m : M A) (h : exn -> M A) :
  calls_at_most 1 m -> (forall e, calls_at_most 0 (h e)) ->
  calls_at_most 1 (try_catch m h).
Proof. intros Hm Hh. exact (calls_try_catch 1 0 m h Hm Hh). Qed.

Ltac quiet :=
  repeat first
    [ apply quiet_ret | apply quiet_throw | apply quiet_lift
    | apply quiet_console_error | apply quiet_getConfig
    | apply quiet_bind; [|intro]
    | apply quiet_try_catch; [|intro]
    | progress cbv zeta
    | match goal with |- calls_at_most 0 (if ?c then _ else _) => destruct c end ].

Ltac single_call known :=
  repeat first
    [ known
    | apply once_fetch
    | solve [apply (calls_weaken 0 1); [lia | quiet]]
    | apply once_after_quiet; [solve [quiet] | intro]
    | apply once_then_quiet; [|intro; solve [quiet]]
    | apply once_caught_quietly; [|intro; solve [quiet]]
    | progress cbv zeta
    | match goal with |- calls_at_most 1 (if ?c then _ else _) => destruct c end ].

Lemma once_apiRequest (env : environment) (transport : request -> outcome response)
    (endpoint options : value) :
  calls_at_most 1 (apiRequest env transport endpoint options).
Proof. unfold apiRequest. single_call fail. Qed.

Lemma once_translate (env : environment) (transport : request -> outcome response)
    (arg : value) :
  calls_at_most 1 (translate env transport arg).
Proof. unfold translate. single_call ltac:(apply once_apiRequest). Qed.

Lemma once_translateJSON (env : environment) (transport : request -> outcome response)
    (arg : value) :
  calls_at_most 1 (translateJSON env transport arg).
Proof. unfold translateJSON. single_call ltac:(apply once_apiRequest). Qed.

Lemma once_translateLocaleFile (env : environment)
    (transport : request -> outcome response) (arg : value) :
  calls_at_most 1 (translateLocaleFile env transport arg).
Proof. unfold translateLocaleFile. single_call ltac:(apply once_translateJSON). Qed.

Lemma once_POST (env : environment) (transport : request -> outcome response)
    (request_json : outcome value) :
  calls_at_most 1 (POST env transport request_json).
Proof.
  unfold POST. single_call ltac:(first [apply once_translateJSON | apply once_translate]).
Qed.

(** X4: no operation retries: [apiRequest], [translate], [translateJSON],
    [translateLocaleFile], [healthCheck] and the route's [POST] each call
    the transport at most once, on every input, in every world, whatever
    the transport answers. *)
Theorem operations_call_at_most_once
    (env : environment) (transport : request -> outcome response) :
  (forall endpoint options, calls_at_most 1 (apiRequest env transport endpoint options))
  /\ (forall arg, calls_at_most 1 (translate env transport arg))
  /\ (forall arg, calls_at_most 1 (translateJSON env transport arg))
  /\ (forall arg, calls_at_most 1 (translateLocaleFile env transport arg))
  /\ calls_at_most 1 (healthCheck env transport)
  /\ (forall request_json, calls_at_most 1 (POST env transport request_json)).
Proof.
  split; [intros; apply once_apiRequest|].
  split; [intros; apply once_translate|].
  split; [intros; apply once_translateJSON|].
  split; [intros; apply once_translateLocaleFile|].
  split; [unfold healthCheck; single_call fail|].
  intros; apply once_POST.
Qed.

(** ** Resolving the configuration *)

(** X1: after [setConfig(c)] with a truthy [c], [getConfig] returns [c]
    itself, whatever the environment holds, with nothing defaulted; a falsy
    [c] (null, 0, the empty string) is no override at all, and [getConfig]
    resolves as after [resetConfig()]. *)
Theorem setConfig_then_getConfig (env : environment) (c : value) (w : world) :
  (truthy c = true ->
     fst (bind (setConfig c) (fun _ => getConfig env) w) = Ok c)
  /\ (truthy c = false ->
      fst (bind (setConfig c) (fun _ => getConfig env) w)
      = fst (bind resetConfig (fun _ => getConfig env) w)).
Proof.
  unfold bind, setConfig, resetConfig, getConfig. cbn [fst snd testConfig truthy].
  split; intro H; rewrite H; [reflexivity|].
  destruct (negb (has_window env)); reflexivity.
Qed.

Lemma setConfig_then_getConfig_witness :
  fst (bind (setConfig (VObj [("apiKey", VStr "k")]))
         (fun _ => getConfig (mkEnv false (fun _ => VStr "from_env"))) unconfigured)
  = Ok (VObj [("apiKey", VStr "k")])
  /\ fst (bind (setConfig (VStr ""))
            (fun _ => getConfig (mkEnv false (fun _ => VStr "from_env"))) configured)
     = Ok (VObj [("apiKey", VStr "from_env"); ("apiUrl", VStr "from_env")]).
Proof.
  split.
  - apply (proj1 (setConfig_then_getConfig (mkEnv false (fun _ => VStr "from_env"))
                    (VObj [("apiKey", VStr "k")]) unconfigured)). reflexivity.
  - rewrite (proj2 (setConfig_then_getConfig (mkEnv false (fun _ => VStr "from_env"))
                      (VStr "") configured) eq_refl). reflexivity.
Defined.

(** X2: without an override, what [getConfig] returns in a browser depends
    on the two NEXT_PUBLIC_ variables alone, so the server's
    SHIPI18N_API_KEY cannot reach it; on the server it depends on the two
    unprefixed variables alone. *)
Theorem getConfig_reads_its_own_variables (env1 env2 : environment) (w : world) :
  truthy (testConfig w) = false ->
  (has_window env1 = true -> has_window env2 = true ->
   process_env env1 "NEXT_PUBLIC_SHIPI18N_API_KEY"
   = process_env env2 "NEXT_PUBLIC_SHIPI18N_API_KEY" ->
   process_env env1 "NEXT_PUBLIC_SHIPI18N_API_URL"
   = process_env env2 "NEXT_PUBLIC_SHIPI18N_API_URL" ->
   getConfig env1 w = getConfig env2 w)
  /\ (has_window env1 = false -> has_window env2 = false ->
      process_env env1 "SHIPI18N_API_KEY" = process_env env2 "SHIPI18N_API_KEY" ->
      process_env env1 "SHIPI18N_API_URL" = process_env env2 "SHIPI18N_API_URL" ->
      getConfig env1 w = getConfig env2 w).
Proof.
  intro H. unfold getConfig. rewrite H.
  split; intros H1 H2 Hk Hu; rewrite H1, H2, Hk, Hu; reflexivity.
Qed.

Lemma getConfig_reads_its_own_variables_witness :
  getConfig
    (browser_env (fun k => if String.eqb k "SHIPI18N_API_KEY" then VStr "secret" else VUndef))
    unconfigured
  = getConfig (browser_env (fun _ => VUndef)) unconfigured.
Proof.
  apply (proj1 (getConfig_reads_its_own_variables
                  (browser_env (fun k => if String.eqb k "SHIPI18N_API_KEY"
                                         then VStr "secret" else VUndef))
                  (browser_env (fun _ => VUndef)) unconfigured eq_refl));
    reflexivity.
Defined.

(** X3: without an override the resolved [apiUrl] is never falsy: it is the
    context's URL variable when that is set and not empty, and the fixed
    default host otherwise. *)
Theorem apiUrl_falls_back_to_default (env : environment) (w : world) :
  truthy (testConfig w) = false ->
  truthy (resolved_url env w) = true
  /\ resolved_url env w
     = (let name := if has_window env
                    then "NEXT_PUBLIC_SHIPI18N_API_URL" else "SHIPI18N_API_URL" in
        if truthy (process_env env name) then process_env env name
        else VStr default_api_url).
Proof.
  intro H. unfold resolved_url, resolved, getConfig. rewrite H.
  destruct (has_window env); cbn [negb fst get_prop_opt get_prop lookup String.eqb
                                  Ascii.eqb Bool.eqb]; unfold js_or.
  - destruct (truthy (process_env env "NEXT_PUBLIC_SHIPI18N_API_URL")) eqn:E;
      split; try reflexivity; exact E.
  - destruct (truthy (process_env env "SHIPI18N_API_URL")) eqn:E;
      split; try reflexivity; exact E.
Qed.

Lemma apiUrl_falls_back_to_default_witness :
  resolved_url (mkEnv false (fun _ => VStr "")) unconfigured = VStr default_api_url.
Proof.
  rewrite (proj2 (apiUrl_falls_back_to_default (mkEnv false (fun _ => VStr ""))
                    unconfigured eq_refl)).
  reflexivity.
Defined.

(** ** Failures of the transport and of the API *)

Lemma read_response_fails (r : response) :
  resp_ok r = false -> exists e, read_response r = Throw e.
Proof.
  intro H. unfold read_response. rewrite H. cbn [negb].
  destruct (get_prop _ "message"); eexists; reflexivity.
Qed.

(** X5: when the transport is down, so that every call throws [e], then
    with a key configured [translateJSON], [translateLocaleFile] and (on
    valid input) [translate] make their one call and fail with that same
    [e]: nothing is retried, caught or rewrapped. *)
Theorem transport_failure_surfaces
    (env : environment) (transport : request -> outcome response)
    (e : exn) (arg : value) (w : world) :
  always_throws transport e ->
  truthy (resolved_key env w) = true ->
  nullish arg = false ->
  (exists req, translateJSON env transport arg w = (Throw e, sent w [req]))
  /\ (exists req, translateLocaleFile env transport arg w = (Throw e, sent w [req]))
  /\ (truthy (get_prop_opt arg "text") = true ->
      truthy (get_prop_opt (get_prop_opt arg "targetLanguages") "length") = true ->
      exists req, translate env transport arg w = (Throw e, sent w [req])).
Proof.
  intros Hd Hk H. split; [|split].
  - rewrite (translateJSON_delegates _ _ _ _ H), (apiRequest_post _ _ _ _ Hk), Hd.
    eexists; reflexivity.
  - rewrite (translateLocaleFile_runs _ _ _ _ H Hk), Hd. eexists; reflexivity.
  - intros Ht Hl. rewrite (translate_runs _ _ _ _ H), Ht, Hl. cbn [negb].
    rewrite (apiRequest_post _ _ _ _ Hk), Hd. eexists; reflexivity.
Qed.

Lemma transport_failure_surfaces_witness :
  exists req,
    translate server_env (stub_throwing (TypeError "fetch failed"))
      (VObj [("text", VStr "Hello"); ("targetLanguages", VArr [VStr "es"])]) configured
    = (Throw (TypeError "fetch failed"), sent configured [req]).
Proof.
  apply (proj2 (proj2 (transport_failure_surfaces server_env
                         (stub_throwing (TypeError "fetch failed"))
                         (TypeError "fetch failed")
                         (VObj [("text", VStr "Hello"); ("targetLanguages", VArr [VStr "es"])])
                         configured (fun _ => eq_refl) eq_refl eq_refl)));
    reflexivity.
Defined.

(** X6: a response with a non-success status is never handed back as data:
    when the API answers every call with such a response, then with a key
    configured [translateJSON], [translateLocaleFile] and (on valid input)
    [translate] fail, whatever the body of the response. *)
Theorem error_status_is_never_a_result
    (env : environment) (transport : request -> outcome response)
    (r : response) (arg : value) (w : world) :
  always_answers transport r ->
  resp_ok r = false ->
  truthy (resolved_key env w) = true ->
  nullish arg = false ->
  (exists e, fst (translateJSON env transport arg w) = Throw e)
  /\ (exists e, fst (translateLocaleFile env transport arg w) = Throw e)
  /\ (truthy (get_prop_opt arg "text") = true ->
      truthy (get_prop_opt (get_prop_opt arg "targetLanguages") "length") = true ->
      exists e, fst (translate env transport arg w) = Throw e).
Proof.
  intros Ha Hok Hk H. destruct (read_response_fails r Hok) as [e He].
  split; [|split].
  - rewrite (translateJSON_delegates _ _ _ _ H), (apiRequest_post _ _ _ _ Hk), Ha, He.
    eexists; reflexivity.
  - rewrite (translateLocaleFile_runs _ _ _ _ H Hk), Ha, He. eexists; reflexivity.
  - intros Ht Hl. rewrite (translate_runs _ _ _ _ H), Ht, Hl. cbn [negb].
    rewrite (apiRequest_post _ _ _ _ Hk), Ha, He. eexists; reflexivity.
Qed.

Lemma error_status_is_never_a_result_witness :
  exists e,
    fst (translateLocaleFile server_env (stub_failing 500 (Ok (VObj [("es", mi_app)])))
           (VObj [("content", VObj [("title", VStr "My App")]);
                  ("targetLanguages", VArr [VStr "es"])]) configured)
    = Throw e.
Proof.
  apply (proj1 (proj2 (error_status_is_never_a_result server_env
                         (stub_failing 500 (Ok (VObj [("es", mi_app)])))
                         (mkResponse false 500 (Ok (VObj [("es", mi_app)])))
                         (VObj [("content", VObj [("title", VStr "My App")]);
                                ("targetLanguages", VArr [VStr "es"])])
                         configured (fun _ => eq_refl) eq_refl eq_refl eq_refl))).
Defined.

(** ** translateLocaleFile: the languages asked for *)

(** X7: [translateLocaleFile] does not look at [targetLanguages] before
    the request goes out: when it is neither an array nor a string (missing,
    say), the call is made, and only then, on a success response, does the
    operation fail with a TypeError for the loop over it. *)
Theorem translateLocaleFile_fails_after_the_call
    (env : environment) (transport : request -> outcome response)
    (arg : value) (w : world) (r : response) (result : value) :
  nullish arg = false ->
  truthy (resolved_key env w) = true ->
  (forall l, get_prop_opt arg "targetLanguages" <> VArr l) ->
  (forall s, get_prop_opt arg "targetLanguages" <> VStr s) ->
  transport (post_request env w (locale_body arg)) = Ok r ->
  resp_ok r = true ->
  resp_json r = Ok result ->
  translateLocaleFile env transport arg w
  = (Throw (TypeError (ToString (get_prop_opt arg "targetLanguages") ++ " is not iterable")),
     sent w [post_request env w (locale_body arg)]).
Proof.
  intros H Hk Ha Hs Ht Hok Hj.
  rewrite (translateLocaleFile_runs _ _ _ _ H Hk), Ht.
  unfold read_response. rewrite Hok, Hj. cbn [negb].
  destruct (get_prop_opt arg "targetLanguages") as [| | | | s | l | |] eqn:E;
    try reflexivity.
  - exfalso. exact (Hs s eq_refl).
  - exfalso. exact (Ha l eq_refl).
Qed.

Lemma translateLocaleFile_fails_after_the_call_witness :
  translateLocaleFile server_env (stub_ok (VObj [("es", mi_app)]))
    (VObj [("content", VObj [("title", VStr "My App")])]) configured
  = (Throw (TypeError "undefined is not iterable"),
     sent configured
       [post_request server_env configured
          (locale_body (VObj [("content", VObj [("title", VStr "My App")])]))]).
Proof.
  apply (translateLocaleFile_fails_after_the_call server_env (stub_ok (VObj [("es", mi_app)]))
           (VObj [("content", VObj [("title", VStr "My App")])]) configured
           (mkResponse true 200 (Ok (VObj [("es", mi_app)]))) (VObj [("es", mi_app)]));
    try reflexivity; intros; discriminate.
Defined.

(** X9: an empty [targetLanguages] array is not rejected by
    [translateLocaleFile] (as it is by [translate]): the request is sent,
    and on a success response the result is the empty object, whatever the
    response holds. *)
Theorem translateLocaleFile_without_languages
    (env : environment) (transport : request -> outcome response)
    (arg : value) (w : world) (r : response) (result : value) :
  nullish arg = false ->
  truthy (resolved_key env w) = true ->
  get_prop_opt arg "targetLanguages" = VArr [] ->
  transport (post_request env w (locale_body arg)) = Ok r ->
  resp_ok r = true ->
  resp_json r = Ok result ->
  translateLocaleFile env transport arg w
  = (Ok (VObj []), sent w [post_request env w (locale_body arg)]).
Proof.
  intros H Hk Hl Ht Hok Hj.
  rewrite (translateLocaleFile_runs _ _ _ _ H Hk), Ht.
  unfold read_response. rewrite Hok, Hj, Hl. reflexivity.
Qed.

Lemma translateLocaleFile_without_languages_witness :
  translateLocaleFile server_env (stub_ok VNull)
    (VObj [("content", VObj [("title", VStr "My App")]); ("targetLanguages", VArr [])])
    configured
  = (Ok (VObj []),
     sent configured
       [post_request server_env configured
          (locale_body (VObj [("content", VObj [("title", VStr "My App")]);
                              ("targetLanguages", VArr [])]))]).
Proof.
  apply (translateLocaleFile_without_languages server_env (stub_ok VNull)
           (VObj [("content", VObj [("title", VStr "My App")]); ("targetLanguages", VArr [])])
           configured (mkResponse true 200 (Ok VNull)) VNull);
    reflexivity.
Defined.










(** ** healthCheck *)

(** X10: [healthCheck] makes exactly one call, to [apiUrl]/api/health with
    no init object (hence no headers and no API key), and returns whatever
    the response parses to without looking at its status; an exception of
    the transport comes out unchanged. *)
Theorem healthCheck_reads_any_response
    (env : environment) (transport : request -> outcome response) (w : world) :
  healthCheck env transport w
  = (match transport (mkRequest (ToString (resolved_url env w) ++ "/api/health") VUndef) with
     | Ok r => resp_json r
     | Throw e => Throw e
     end,
     sent w [mkRequest (ToString (resolved_url env w) ++ "/api/health") VUndef]).
Proof.
  unfold healthCheck, bind, lift. rewrite getConfig_run.
  rewrite (get_prop_total _ _ (resolved_not_nullish env w)).
  fold (resolved_url env w). unfold fetch, sent.
  destruct (transport _); reflexivity.
Qed.

(** ** The proxy route: every path *)

(** X11: the route never rejects: for every request, readable or not, in
    every world and with every transport, [POST] returns a response, whose
    status is 200, 400 or 500, and for 400 and 500 the body is an object
    with the single field [error]. *)
Theorem POST_always_responds
    (env : environment) (transport : request -> outcome response)
    (request_json : outcome value) (w : world) :
  exists resp,
    fst (POST env transport request_json w) = Ok resp
    /\ (http_status resp = 200
        \/ ((http_status resp = 400 \/ http_status resp = 500)
            /\ exists message, http_body resp = error_body message)).
Proof.
  destruct request_json as [body|e].
  2:{ rewrite POST_unreadable. eexists. split; [reflexivity|].
      right. split; [right; reflexivity | eexists; reflexivity]. }
  destruct (nullish body) eqn:H.
  { destruct (POST_nullish env transport body w H) as [e He]. rewrite He.
    eexists. split; [reflexivity|].
    right. split; [right; reflexivity | eexists; reflexivity]. }
  destruct (truthy (get_prop_opt body "text")) eqn:Ht.
  2:{ unfold POST, try_catch. read_params H. rewrite Ht.
      eexists. split; [reflexivity|].
      right. split; [left; reflexivity | eexists; reflexivity]. }
  destruct (negb (truthy (get_prop_opt body "targetLanguages"))
            || strict_eq_num (get_prop_opt (get_prop_opt body "targetLanguages") "length") 0)
    eqn:Hl.
  { unfold POST, try_catch. read_params H. rewrite Ht, Hl.
    eexists. split; [reflexivity|].
    right. split; [left; reflexivity | eexists; reflexivity]. }
  apply orb_false_elim in Hl. destruct Hl as [Hl Hz].
  apply negb_false_iff in Hl.
  rewrite (POST_valid_runs env transport body w H Ht Hl).
  2:{ intro E. rewrite E in Hz. discriminate. }
  destruct (dispatched env transport body w) as [[result|e] w'].
  - destruct (stringify result).
    + eexists. split; [reflexivity|]. left; reflexivity.
    + eexists. split; [reflexivity|].
      right. split; [right; reflexivity | eexists; reflexivity].
  - eexists. split; [reflexivity|].
    right. split; [right; reflexivity | eexists; reflexivity].
Qed.

(** X15: a request whose body cannot be read as JSON gets 500 with the
    parser's message ("Translation failed" for an empty one), and so does,
    with the engine's message, a body that is JSON [null]; the error is
    written to the console and nothing is sent upstream. *)
Theorem POST_unreadable_body
    (env : environment) (transport : request -> outcome response) (w : world) :
  (forall e,
     POST env transport (Throw e) w
     = (Ok (mkHttp 500 (error_body (failure_message e))), logged w e))
  /\ (exists e,
        POST env transport (Ok VNull) w
        = (Ok (mkHttp 500 (error_body (failure_message e))), logged w e)).
Proof.
  split.
  - intro e. apply POST_unreadable.
  - apply POST_nullish. reflexivity.
Qed.

Lemma dispatched_json_runs (env : environment) (transport : request -> outcome response)
    (body : value) (w : world) :
  strict_eq_str (get_prop_opt body "outputFormat") "json" = true ->
  dispatched env transport body w
  = apiRequest env transport (VStr "/translate")
      (object_literal [Prop_ "method" (VStr "POST"); Prop_ "body" (json_body body)]) w.
Proof.
  intro Hf. unfold dispatched. rewrite Hf.
  rewrite translateJSON_delegates by reflexivity.
  match goal with |- context [get_prop_opt ?l "json"] => set (lit := l) end.
  change (get_prop_opt lit "json") with (get_prop_opt body "text").
  change (get_prop_opt lit "targetLanguages") with (get_prop_opt body "targetLanguages").
  change (get_prop_opt lit "sourceLanguage") with VUndef.
  change (get_prop_opt lit "enablePluralization") with VUndef.
  change (get_prop_opt lit "preservePlaceholders")
    with (with_default (get_prop_opt body "preservePlaceholders") (VBool true)).
  clear lit. rewrite with_default_idem. reflexivity.
Qed.

Lemma dispatched_plain_runs (env : environment) (transport : request -> outcome response)
    (body : value) (w : world) :
  strict_eq_str (get_prop_opt body "outputFormat") "json" = false ->
  truthy (get_prop_opt body "text") = true ->
  dispatched env transport body w
  = if truthy (get_prop_opt (get_prop_opt body "targetLanguages") "length")
    then apiRequest env transport (VStr "/translate")
           (object_literal [Prop_ "method" (VStr "POST"); Prop_ "body" (plain_body body)]) w
    else (Throw (JsError "At least one target language is required"), w).
Proof.
  intros Hf Ht. unfold dispatched. rewrite Hf.
  rewrite translate_runs by reflexivity.
  match goal with |- context [get_prop_opt ?l "text"] => set (lit := l) end.
  change (get_prop_opt lit "text") with (get_prop_opt body "text").
  change (get_prop_opt lit "targetLanguages") with (get_prop_opt body "targetLanguages").
  change (get_prop_opt lit "sourceLanguage") with VUndef.
  change (get_prop_opt lit "enablePluralization") with VUndef.
  change (get_prop_opt lit "preservePlaceholders")
    with (with_default (get_prop_opt body "preservePlaceholders") (VBool true)).
  clear lit. rewrite with_default_idem, Ht. cbn [negb].
  destruct (truthy (get_prop_opt (get_prop_opt body "targetLanguages") "length"));
    reflexivity.
Qed.

Lemma fetched_POST_valid (env : environment) (transport : request -> outcome response)
    (body : value) (w : world) :
  nullish body = false ->
  truthy (get_prop_opt body "text") = true ->
  truthy (get_prop_opt body "targetLanguages") = true ->
  get_prop_opt (get_prop_opt body "targetLanguages") "length" <> VNum 0 ->
  fetched (snd (POST env transport (Ok body) w))
  = fetched (snd (dispatched env transport body w)).
Proof.
  intros H Ht Hl Hn. rewrite (POST_valid_runs env transport body w H Ht Hl Hn).
  destruct (dispatched env transport body w) as [[result|e] w']; [|reflexivity].
  destruct (stringify result); reflexivity.
Qed.

(** X12: of the fields of the posted body the route passes on [text],
    [targetLanguages] and [preservePlaceholders] only: with a key configured
    the one request it sends upstream always says [sourceLanguage] "en" and
    [enablePluralization] true, whatever the posted body says of them; in
    JSON mode [text] goes out as it is when a string. *)
Theorem POST_sends_fixed_options
    (env : environment) (transport : request -> outcome response)
    (body : value) (w : world) :
  nullish body = false ->
  truthy (get_prop_opt body "text") = true ->
  truthy (get_prop_opt body "targetLanguages") = true ->
  get_prop_opt (get_prop_opt body "targetLanguages") "length" <> VNum 0 ->
  truthy (resolved_key env w) = true ->
  (strict_eq_str (get_prop_opt body "outputFormat") "json" = true ->
     fetched (snd (POST env transport (Ok body) w))
     = (fetched w ++ [post_request env w (json_body body)])%list)
  /\ (strict_eq_str (get_prop_opt body "outputFormat") "json" = false ->
      truthy (get_prop_opt (get_prop_opt body "targetLanguages") "length") = true ->
      fetched (snd (POST env transport (Ok body) w))
      = (fetched w ++ [post_request env w (plain_body body)])%list).
Proof.
  intros H Ht Hl Hn Hk.
  rewrite (fetched_POST_valid env transport body w H Ht Hl Hn).
  split.
  - intro Hf. rewrite (dispatched_json_runs _ _ _ _ Hf), (apiRequest_post _ _ _ _ Hk).
    reflexivity.
  - intros Hf Hlen. rewrite (dispatched_plain_runs _ _ _ _ Hf Ht), Hlen.
    rewrite (apiRequest_post _ _ _ _ Hk). reflexivity.
Qed.

Lemma POST_sends_fixed_options_witness :
  fetched (snd (POST server_env (stub_ok hola)
                  (Ok (VObj [("text", VStr "Bonjour");
                             ("sourceLanguage", VStr "fr");
                             ("enablePluralization", VBool false);
                             ("targetLanguages", VArr [VStr "es"])]))
                  configured))
  = [post_request server_env configured
       (JSON_stringify
          (VObj [("text", VStr "Bonjour");
                 ("sourceLanguage", VStr "en");
                 ("targetLanguages", VArr [VStr "es"]);
                 ("preservePlaceholders", VBool true);
                 ("enablePluralization", VBool true)]))].
Proof.
  apply (proj2 (POST_sends_fixed_options server_env (stub_ok hola)
                  (VObj [("text", VStr "Bonjour");
                         ("sourceLanguage", VStr "fr");
                         ("enablePluralization", VBool false);
                         ("targetLanguages", VArr [VStr "es"])])
                  configured eq_refl eq_refl eq_refl ltac:(discriminate) eq_refl));
    reflexivity.
Defined.

(** X13: with no API key configured, a request that passes the route's
    validation (and, in plain mode, names at least one language) gets 500
    with the text "SHIPI18N_API_KEY is not set. ..."; the error is written
    to the console and nothing is sent upstream. *)
Theorem POST_without_key
    (env : environment) (transport : request -> outcome response)
    (body : value) (w : world) :
  nullish body = false ->
  truthy (get_prop_opt body "text") = true ->
  truthy (get_prop_opt body "targetLanguages") = true ->
  get_prop_opt (get_prop_opt body "targetLanguages") "length" <> VNum 0 ->
  truthy (resolved_key env w) = false ->
  strict_eq_str (get_prop_opt body "outputFormat") "json" = true
  \/ truthy (get_prop_opt (get_prop_opt body "targetLanguages") "length") = true ->
  POST env transport (Ok body) w
  = (Ok (mkHttp 500 (error_body missing_key_message)),
     logged w (JsError missing_key_message)).
Proof.
  intros H Ht Hl Hn Hk Hmode.
  rewrite (POST_valid_runs env transport body w H Ht Hl Hn).
  destruct (strict_eq_str (get_prop_opt body "outputFormat") "json") eqn:Hf.
  - rewrite (dispatched_json_runs _ _ _ _ Hf), (apiRequest_no_key _ _ _ _ _ Hk).
    reflexivity.
  - destruct Hmode as [Hj|Hlen]; [discriminate|].
    rewrite (dispatched_plain_runs _ _ _ _ Hf Ht), Hlen.
    rewrite (apiRequest_no_key _ _ _ _ _ Hk). reflexivity.
Qed.

Lemma POST_without_key_witness :
  POST server_env (stub_ok hola)
    (Ok (VObj [("text", VStr "Hello"); ("targetLanguages", VArr [VStr "es"])]))
    unconfigured
  = (Ok (mkHttp 500 (error_body missing_key_message)),
     logged unconfigured (JsError missing_key_message)).
Proof.
  apply (POST_without_key server_env (stub_ok hola)
           (VObj [("text", VStr "Hello"); ("targetLanguages", VArr [VStr "es"])])
           unconfigured eq_refl eq_refl eq_refl ltac:(discriminate) eq_refl).
  right. reflexivity.
Defined.

(** X14: the route's check of [targetLanguages] lets through a truthy value
    that has no length (a number, [true], an object); in plain mode
    [translate] then rejects it, so the answer is 500, not 400, with
    "At least one target language is required", and nothing is sent
    upstream. *)
Theorem POST_languages_without_length
    (env : environment) (transport : request -> outcome response)
    (body : value) (w : world) :
  nullish body = false ->
  truthy (get_prop_opt body "text") = true ->
  truthy (get_prop_opt body "targetLanguages") = true ->
  get_prop_opt (get_prop_opt body "targetLanguages") "length" = VUndef ->
  strict_eq_str (get_prop_opt body "outputFormat") "json" = false ->
  POST env transport (Ok body) w
  = (Ok (mkHttp 500 (error_body "At least one target language is required")),
     logged w (JsError "At least one target language is required")).
Proof.
  intros H Ht Hl Hlen Hf.
  rewrite (POST_valid_runs env transport body w H Ht Hl) by (rewrite Hlen; discriminate).
  rewrite (dispatched_plain_runs _ _ _ _ Hf Ht), Hlen. reflexivity.
Qed.

Lemma POST_languages_without_length_witness :
  POST server_env (stub_ok hola)
    (Ok (VObj [("text", VStr "Hello"); ("targetLanguages", VNum 5)])) configured
  = (Ok (mkHttp 500 (error_body "At least one target language is required")),
     logged configured (JsError "At least one target language is required")).
Proof.
  apply (POST_languages_without_length server_env (stub_ok hola)
           (VObj [("text", VStr "Hello"); ("targetLanguages", VNum 5)]) configured);
    reflexivity.
Defined.

(** ** The pages: choosing languages *)

Lemma includes_In (code : string) (l : list string) :
  existsb (String.eqb code) l = true <-> In code l.
Proof.
  rewrite existsb_exists. split.
  - intros (x & Hx & E). apply String.eqb_eq in E. subst. exact Hx.
  - intro H. exists code. split; [exact H | apply String.eqb_refl].
Qed.

Lemma In_without (code c : string) (l : list string) :
  In c (filter (fun x => negb (String.eqb x code)) l) <-> In c l /\ c <> code.
Proof.
  rewrite filter_In. rewrite negb_true_iff, String.eqb_neq. reflexivity.
Qed.

Lemma without_absent (code : string) (l : list string) :
  ~ In code l -> filter (fun x => negb (String.eqb x code)) l = l.
Proof.
  induction l as [|x l IH]; intro H; cbn [filter].
  - reflexivity.
  - destruct (String.eqb_spec x code) as [E|E]; cbn [negb].
    + exfalso. apply H. left. exact E.
    + rewrite IH; [reflexivity|]. intro Hin. apply H. right. exact Hin.
Qed.

(** X16: [toggleLanguage] flips whether the code is selected and leaves
    every other code selected or not as it was. *)
Theorem toggleLanguage_flips (code : string) (prev : list string) :
  (In code (toggleLanguage code prev) <-> ~ In code prev)
  /\ (forall c, c <> code -> (In c (toggleLanguage code prev) <-> In c prev)).
Proof.
  unfold toggleLanguage. destruct (existsb (String.eqb code) prev) eqn:E.
  - apply includes_In in E. split.
    + rewrite In_without. split; [intros [_ F]; congruence | intro F; contradiction].
    + intros c Hc. rewrite In_without. tauto.
  - assert (Hn : ~ In code prev)
      by (intro H; apply includes_In in H; congruence).
    split.
    + split; [intros _; exact Hn | intros _; apply in_or_app; right; left; reflexivity].
    + intros c Hc. rewrite in_app_iff. cbn [In]. split; [|tauto].
      intros [H|[H|[]]]; [exact H | congruence].
Qed.

(** X17: a selection without duplicates stays without duplicates under
    [toggleLanguage], and the codes that stay keep their order. *)
Theorem toggleLanguage_keeps_distinct (code : string) (prev : list string) :
  NoDup prev ->
  NoDup (toggleLanguage code prev)
  /\ filter (fun x => negb (String.eqb x code)) (toggleLanguage code prev)
     = filter (fun x => negb (String.eqb x code)) prev.
Proof.
  intro Hd. unfold toggleLanguage. destruct (existsb (String.eqb code) prev) eqn:E.
  - split; [apply NoDup_filter, Hd|].
    apply without_absent. rewrite In_without. tauto.
  - assert (Hn : ~ In code prev)
      by (intro H; apply includes_In in H; congruence).
    split.
    + apply NoDup_app; [exact Hd | repeat constructor; intros [] |].
      intros x Hx [F|[]]. subst. exact (Hn Hx).
    + rewrite filter_app. cbn [filter]. rewrite String.eqb_refl. cbn [negb].
      apply app_nil_r.
Qed.

Lemma toggleLanguage_keeps_distinct_witness :
  NoDup (toggleLanguage "fr" ["es"; "fr"; "de"]).
Proof.
  apply (toggleLanguage_keeps_distinct "fr" ["es"; "fr"; "de"]).
  repeat constructor; cbn; intuition discriminate.
Defined.

(** X18: toggling a code twice gives back the selection when the code was
    not selected; when it was, the code ends up selected once, moved to the
    end. *)
Theorem toggleLanguage_twice (code : string) (prev : list string) :
  (~ In code prev -> toggleLanguage code (toggleLanguage code prev) = prev)
  /\ (In code prev ->
      toggleLanguage code (toggleLanguage code prev)
      = (filter (fun x => negb (String.eqb x code)) prev ++ [code])%list).
Proof.
  split; intro H.
  - assert (E : existsb (String.eqb code) prev = false).
    { destruct (existsb (String.eqb code) prev) eqn:E; [|reflexivity].
      apply includes_In in E. contradiction. }
    unfold toggleLanguage at 2. rewrite E. unfold toggleLanguage.
    assert (E2 : existsb (String.eqb code) (prev ++ [code]) = true)
      by (apply includes_In, in_or_app; right; left; reflexivity).
    rewrite E2, filter_app. cbn [filter]. rewrite String.eqb_refl. cbn [negb].
    rewrite app_nil_r. apply without_absent, H.
  - assert (E : existsb (String.eqb code) prev = true) by (apply includes_In, H).
    unfold toggleLanguage at 2. rewrite E. unfold toggleLanguage.
    assert (E2 : existsb (String.eqb code)
                   (filter (fun x => negb (String.eqb x code)) prev) = false).
    { destruct (existsb _ (filter _ prev)) eqn:E2; [|reflexivity].
      apply includes_In, In_without in E2. tauto. }
    rewrite E2. reflexivity.
Qed.

Lemma toggleLanguage_twice_witness :
  toggleLanguage "de" (toggleLanguage "de" ["es"; "fr"]) = ["es"; "fr"]
  /\ toggleLanguage "es" (toggleLanguage "es" ["es"; "fr"]) = ["fr"; "es"].
Proof.
  split.
  - apply (proj1 (toggleLanguage_twice "de" ["es"; "fr"])).
    cbn; intuition discriminate.
  - apply (proj2 (toggleLanguage_twice "es" ["es"; "fr"])). left; reflexivity.
Defined.

(** ** The pages: translating *)

(** X19: the two text pages do nothing on a text that [trim] reduces to
    the empty string, that is a text of white space only:
    [handleTranslate] leaves the component state as it is, clears no error
    and calls neither the client nor the route. *)
Theorem handleTranslate_ignores_blank_text
    (trim : string -> string)
    (env : environment) (transport : request -> outcome response) (w : world) :
  (forall st, trim (ClientSidePage.text st) = EmptyString ->
     ClientSidePage.handleTranslate trim env transport st w = (Ok st, w))
  /\ (forall st, trim (ApiRoutePage.text st) = EmptyString ->
        ApiRoutePage.handleTranslate trim transport st w = (Ok st, w)).
Proof.
  split; intros st B.
  - unfold ClientSidePage.handleTranslate. rewrite B. reflexivity.
  - unfold ApiRoutePage.handleTranslate. rewrite B. reflexivity.
Qed.

Lemma handleTranslate_ignores_blank_text_witness :
  ClientSidePage.handleTranslate trim_ascii server_env (stub_ok hola)
    (ClientSidePage.mkState "  " ["es"] VNull false (VStr "earlier error")) configured
  = (Ok (ClientSidePage.mkState "  " ["es"] VNull false (VStr "earlier error")), configured).
Proof.
  apply (proj1 (handleTranslate_ignores_blank_text trim_ascii server_env (stub_ok hola)
                  configured)).
  reflexivity.
Defined.

Lemma truthy_nonempty (s : string) : s <> EmptyString -> truthy (VStr s) = true.
Proof. destruct s; [congruence | reflexivity]. Qed.

(** X20: on a text that [trim] does not reduce to the empty string,
    [handleTranslate] of the client-side page never rejects, whatever
    [translate] does, and always ends with [loading] false and the text and
    selection untouched; when [translate] returns, its result is shown and
    the error cleared; when it throws, the message is shown and the
    translations of an earlier run stay. *)
Theorem client_handleTranslate_settles
    (trim : string -> string)
    (env : environment) (transport : request -> outcome response)
    (st : ClientSidePage.state) (w : world) :
  trim (ClientSidePage.text st) <> EmptyString ->
  (forall result w', client_call env transport st w = (Ok result, w') ->
     ClientSidePage.handleTranslate trim env transport st w
     = (Ok (ClientSidePage.mkState (ClientSidePage.text st)
              (ClientSidePage.selectedLanguages st) result false VNull), w'))
  /\ (forall e w', client_call env transport st w = (Throw e, w') ->
        ClientSidePage.handleTranslate trim env transport st w
        = (Ok (ClientSidePage.mkState (ClientSidePage.text st)
                 (ClientSidePage.selectedLanguages st) (ClientSidePage.translations st)
                 false (VStr (message_of e))), w')).
Proof.
  intro B. unfold ClientSidePage.handleTranslate. rewrite (truthy_nonempty _ B).
  cbn [negb]. fold (client_call env transport st).
  unfold bind, try_catch. split.
  - intros result w' E. rewrite E. reflexivity.
  - intros e w' E. rewrite E. reflexivity.
Qed.

Lemma client_handleTranslate_settles_witness :
  ClientSidePage.handleTranslate trim_ascii server_env
    (stub_failing 401 (Ok (VObj [("message", VStr "Invalid API key")])))
    (ClientSidePage.mkState "Hello" ["es"] hola false VNull) configured
  = (Ok (ClientSidePage.mkState "Hello" ["es"] hola false (VStr "Invalid API key")),
     snd (client_call server_env (stub_failing 401 (Ok (VObj [("message", VStr "Invalid API key")])))
            (ClientSidePage.mkState "Hello" ["es"] hola false VNull) configured)).
Proof.
  apply (proj2 (client_handleTranslate_settles trim_ascii server_env
                  (stub_failing 401 (Ok (VObj [("message", VStr "Invalid API key")])))
                  (ClientSidePage.mkState "Hello" ["es"] hola false VNull) configured
                  ltac:(discriminate))
           (JsError "Invalid API key")).
  reflexivity.
Defined.

(** X21: with every language deselected, [handleTranslate] of the
    client-side page, called on a text that is not empty and that [trim]
    does not reduce to the empty string, shows "At least one target language
    is required" without any call to the transport, whether a key is
    configured or not. *)
Theorem client_handleTranslate_without_languages
    (trim : string -> string)
    (env : environment) (transport : request -> outcome response)
    (st : ClientSidePage.state) (w : world) :
  trim (ClientSidePage.text st) <> EmptyString ->
  ClientSidePage.text st <> EmptyString ->
  ClientSidePage.selectedLanguages st = [] ->
  ClientSidePage.handleTranslate trim env transport st w
  = (Ok (ClientSidePage.mkState (ClientSidePage.text st) [] (ClientSidePage.translations st)
           false (VStr "At least one target language is required")), w).
Proof.
  intros B Hne Hl.
  unfold ClientSidePage.handleTranslate. rewrite (truthy_nonempty _ B). cbn [negb].
  unfold bind, try_catch. rewrite translate_runs by reflexivity.
  match goal with |- context [get_prop_opt ?l "text"] => set (lit := l) end.
  change (get_prop_opt lit "text") with (VStr (ClientSidePage.text st)).
  change (get_prop_opt lit "targetLanguages")
    with (VArr (map VStr (ClientSidePage.selectedLanguages st))).
  rewrite (truthy_nonempty _ Hne), Hl. reflexivity.
Qed.

Lemma client_handleTranslate_without_languages_witness :
  ClientSidePage.handleTranslate trim_ascii server_env (stub_ok hola)
    (ClientSidePage.mkState "Hello" [] hola false VNull) unconfigured
  = (Ok (ClientSidePage.mkState "Hello" [] hola false
           (VStr "At least one target language is required")), unconfigured).
Proof.
  apply (client_handleTranslate_without_languages trim_ascii server_env (stub_ok hola)
           (ClientSidePage.mkState "Hello" [] hola false VNull) unconfigured);
    [discriminate | discriminate | reflexivity].
Defined.

Lemma server_page_translate (env : environment) (transport : request -> outcome response)
    (w : world) :
  translate env transport
    (object_literal
       [Prop_ "text" (VStr ServerSidePage.sampleText);
        Prop_ "targetLanguages" (VArr [VStr "es"; VStr "fr"; VStr "de"; VStr "ja"]);
        Prop_ "preservePlaceholders" (VBool true)]) w
  = if truthy (resolved_key env w)
    then (match transport (server_page_request env w) with
          | Ok r => read_response r
          | Throw e => Throw e
          end, sent w [server_page_request env w])
    else (Throw (JsError missing_key_message), w).
Proof.
  rewrite translate_runs by reflexivity.
  match goal with |- context [get_prop_opt ?l "text"] => set (lit := l) end.
  change (get_prop_opt lit "text") with (VStr ServerSidePage.sampleText).
  change (get_prop_opt lit "targetLanguages")
    with (VArr [VStr "es"; VStr "fr"; VStr "de"; VStr "ja"]).
  change (get_prop_opt lit "sourceLanguage") with VUndef.
  change (get_prop_opt lit "enablePluralization") with VUndef.
  change (get_prop_opt lit "preservePlaceholders") with (VBool true).
  clear lit. cbn [with_default truthy negb get_prop_opt get_prop String.eqb Ascii.eqb
                  Bool.eqb List.length Z.of_nat Z.eqb Pos.of_succ_nat Pos.succ].
  change (negb (String.eqb ServerSidePage.sampleText "")) with true. cbv iota.
  destruct (truthy (resolved_key env w)) eqn:Hk.
  - rewrite (apiRequest_post _ _ _ _ Hk). reflexivity.
  - apply apiRequest_no_key, Hk.
Qed.

(** X22: the server-side page always has something to render: the
    translation never makes the component throw.  With no key configured it
    renders the error "SHIPI18N_API_KEY is not set. ..." without any call;
    with a key and a success response, the parsed response and no error;
    when the transport throws, the transport's message. *)
Theorem ServerSideExample_always_renders
    (env : environment) (transport : request -> outcome response) (w : world) :
  (exists translations error,
     fst (ServerSidePage.ServerSideExample env transport w) = Ok (translations, error))
  /\ (truthy (resolved_key env w) = false ->
      ServerSidePage.ServerSideExample env transport w
      = (Ok (VNull, VStr missing_key_message), w))
  /\ (truthy (resolved_key env w) = true ->
      (forall r result,
         transport (server_page_request env w) = Ok r ->
         resp_ok r = true -> resp_json r = Ok result ->
         ServerSidePage.ServerSideExample env transport w
         = (Ok (result, VNull), sent w [server_page_request env w]))
      /\ (forall e,
            transport (server_page_request env w) = Throw e ->
            ServerSidePage.ServerSideExample env transport w
            = (Ok (VNull, VStr (message_of e)), sent w [server_page_request env w]))).
Proof.
  unfold ServerSidePage.ServerSideExample, try_catch, bind.
  rewrite server_page_translate.
  destruct (truthy (resolved_key env w)) eqn:Hk.
  - split; [|split; [discriminate|]].
    + destruct (transport (server_page_request env w)) as [r|e].
      * destruct (read_response r); eexists; eexists; reflexivity.
      * eexists; eexists; reflexivity.
    + intros _. split.
      * intros r result Ht Hok Hj. rewrite Ht. unfold read_response.
        rewrite Hok, Hj. reflexivity.
      * intros e Ht. rewrite Ht. reflexivity.
  - split; [eexists; eexists; reflexivity|].
    split; [reflexivity | discriminate].
Qed.

Lemma ServerSideExample_always_renders_witness :
  ServerSidePage.ServerSideExample server_env (stub_ok hola) unconfigured
  = (Ok (VNull, VStr missing_key_message), unconfigured).
Proof.
  apply (proj1 (proj2 (ServerSideExample_always_renders server_env (stub_ok hola)
                         unconfigured))).
  reflexivity.
Defined.



Lemma file_page_translateJSON_runs
    (transport : request -> outcome response) (arg : value) (w : world) :
  nullish arg = false ->
  FileTranslationPage.translateJSON transport arg w
  = (match transport (file_page_request (get_prop_opt arg "json")
                        (get_prop_opt arg "targetLanguages")) with
     | Ok r => read_route_response r
     | Throw e => Throw e
     end,
     sent w [file_page_request (get_prop_opt arg "json")
               (get_prop_opt arg "targetLanguages")]).
Proof.
  intro H. unfold FileTranslationPage.translateJSON. read_params H.
  unfold fetch, throw.
  change (mkRequest "/api/translate" _)
    with (file_page_request (get_prop_opt arg "json") (get_prop_opt arg "targetLanguages")).
  fold (sent w [file_page_request (get_prop_opt arg "json")
                  (get_prop_opt arg "targetLanguages")]).
  destruct (transport _) as [r|e]; [|reflexivity].
  unfold read_route_response. destruct (resp_ok r); cbn [negb].
  - destruct (resp_json r); reflexivity.
  - destruct (resp_json r) as [d|e]; [|reflexivity].
    destruct (get_prop d "error"); reflexivity.
Qed.



(** X25: [handleTranslate] of the file-translation page does nothing while
    no content is loaded, and also for a file whose content is falsy (the
    JSON values null, false, 0 and the empty string).  With truthy content
    it makes one call, for the content and the selected languages, never
    rejects, and ends with [loading] false and the content, file name and
    selection untouched. *)
Theorem file_page_handleTranslate_settles
    (transport : request -> outcome response) (st : FileTranslationPage.state)
    (w : world) :
  (truthy (FileTranslationPage.fileContent st) = false ->
     FileTranslationPage.handleTranslate transport st w = (Ok st, w))
  /\ (truthy (FileTranslationPage.fileContent st) = true ->
      exists translations error,
        FileTranslationPage.handleTranslate transport st w
        = (Ok (FileTranslationPage.mkState (FileTranslationPage.fileContent st)
                 (FileTranslationPage.fileName st)
                 (FileTranslationPage.selectedLanguages st) translations false error),
           sent w [file_page_request (FileTranslationPage.fileContent st)
                     (VArr (map VStr (FileTranslationPage.selectedLanguages st)))])).
Proof.
  unfold FileTranslationPage.handleTranslate.
  split; intro Hc; rewrite Hc; [reflexivity|]. cbn [negb].
  unfold bind, try_catch. rewrite file_page_translateJSON_runs by reflexivity.
  match goal with |- context [get_prop_opt ?l "json"] => set (lit := l) end.
  change (get_prop_opt lit "json") with (FileTranslationPage.fileContent st).
  change (get_prop_opt lit "targetLanguages")
    with (VArr (map VStr (FileTranslationPage.selectedLanguages st))).
  clear lit.
  destruct (transport _) as [r|e]; [|eexists; eexists; reflexivity].
  destruct (read_route_response r); eexists; eexists; reflexivity.
Qed.

Lemma file_page_handleTranslate_settles_witness :
  FileTranslationPage.handleTranslate (stub_ok hola)
    (FileTranslationPage.mkState (VNum 0) "zero.json" ["es"] VNull false VNull) unconfigured
  = (Ok (FileTranslationPage.mkState (VNum 0) "zero.json" ["es"] VNull false VNull),
     unconfigured).
Proof.
  apply (proj1 (file_page_handleTranslate_settles (stub_ok hola)
                  (FileTranslationPage.mkState (VNum 0) "zero.json" ["es"] VNull false VNull)
                  unconfigured)).
  reflexivity.
Defined.

(** ** translateJSON: no validation *)

(** X26: unlike [translate], [translateJSON] checks nothing before the
    request: with a key configured it makes its one call also when
    [targetLanguages] is missing, and the body then has no
    [targetLanguages] member at all; for an empty array the member is
    sent, empty. *)
Theorem translateJSON_sends_without_languages
    (env : environment) (transport : request -> outcome response)
    (arg : value) (w : world) :
  nullish arg = false ->
  truthy (resolved_key env w) = true ->
  (get_prop_opt arg "targetLanguages" = VUndef ->
     snd (translateJSON env transport arg w)
     = sent w [post_request env w
                 (JSON_stringify
                    (VObj [("text",
                            if is_string (get_prop_opt arg "json")
                            then get_prop_opt arg "json"
                            else JSON_stringify (get_prop_opt arg "json"));
                           ("sourceLanguage",
                            with_default (get_prop_opt arg "sourceLanguage") (VStr "en"));
                           ("preservePlaceholders",
                            with_default (get_prop_opt arg "preservePlaceholders")
                              (VBool true));
                           ("enablePluralization",
                            with_default (get_prop_opt arg "enablePluralization")
                              (VBool true));
                           ("outputFormat", VStr "json")]))])
  /\ (get_prop_opt arg "targetLanguages" = VArr [] ->
      exists body : obj,
        snd (translateJSON env transport arg w)
        = sent w [post_request env w (JSON_stringify (VObj body))]
        /\ lookup "targetLanguages" body = Some (VArr [])).
Proof.
  intros H Hk.
  rewrite (translateJSON_delegates _ _ _ _ H), (apiRequest_post _ _ _ _ Hk). cbn [snd].
  split; intro Hl; rewrite Hl.
  - reflexivity.
  - eexists. split; reflexivity.
Qed.

Lemma translateJSON_sends_without_languages_witness :
  fetched (snd (translateJSON server_env (stub_ok (VObj []))
                  (VObj [("json", VStr "{}")]) configured))
  = [mkRequest "https://api.test.com/api/translate"
       (VObj [("method", VStr "POST");
              ("body",
               VStr ("{" ++ quoted "text" ++ ":" ++ quoted "{}" ++ ","
                     ++ quoted "sourceLanguage" ++ ":" ++ quoted "en" ++ ","
                     ++ quoted "preservePlaceholders" ++ ":true,"
                     ++ quoted "enablePluralization" ++ ":true,"
                     ++ quoted "outputFormat" ++ ":" ++ quoted "json" ++ "}"));
              ("headers", VObj [("Content-Type", VStr "application/json");
                                ("X-API-Key", VStr "sk_test_123")])])].
Proof.
  rewrite (proj1 (translateJSON_sends_without_languages server_env (stub_ok (VObj []))
                    (VObj [("json", VStr "{}")]) configured eq_refl eq_refl) eq_refl).
  reflexivity.
Defined.

Lemma toggleLanguage_flips_witness :
  (In "de" (toggleLanguage "fr" ["es"; "fr"; "de"]) <-> In "de" ["es"; "fr"; "de"]).
Proof.
  apply (proj2 (toggleLanguage_flips "fr" ["es"; "fr"; "de"]) "de"). discriminate.
Defined.
